(** * cisco_additional_facts: a shallow embedding and its properties

    The module gathers facts from Cisco devices by sending show-commands
    and parsing their text output.  This development embeds the Python
    source function by function and proves properties of the embedding.

    Conventions of the embedding:

    - Python [str] values are Rocq [string]s.  Character classes
      ([str.split], [str.lower], [str.isalnum], ...) follow CPython on the
      ASCII range; code points from 128 on are taken as caseless symbols
      that are neither alphanumeric nor white space.
    - A Python exception is a constructor of [exn]; a computation that can
      raise returns a [result].  An unbound local variable is an [option]
      whose reading raises [UnboundLocalError].
    - A [for] loop over lines is [for_each] applied to the body of the
      loop, a function from the loop variables and a line to the new loop
      variables.  The body of every loop of the source is a definition of
      its own, in a module named after the function it belongs to.
    - The device session is threaded as explicit state and the records
      written through [logging] are collected; both survive a raised
      exception, as they do in Python.  The command runner itself is a
      parameter ([send]).
    - The NX-OS route parser mutates a dict that may already sit in the
      list it returns; its dicts live in a store and are referred to by
      index.
    - [ipaddress.IPv4Address], [is_private] and [int] belong to Python;
      they are modelled after CPython 3.10.

    Layout: the embedding comes first, then the vocabulary and the canned
    devices the statements use, then the lemmas and theorems, grouped by
    the part of the module they are about. *)

From Stdlib Require Import String Ascii List Bool Arith ZArith Lia.
Import ListNotations.
Local Open Scope string_scope.
Local Open Scope list_scope.
Local Open Scope nat_scope.

Set Implicit Arguments.

(* ================================================================== *)
(** * Exceptions and results *)
(* ================================================================== *)

(** The exception classes the module can meet.  All of them derive from
    Python's [Exception], so both [except Exception] and a bare [except]
    catch every one of them. *)
Inductive exn : Type :=
| IndexError
| ValueError
| TypeError
| UnboundLocalError
| AddressValueError
| AssertionError
| CommandError (msg : string).

Inductive result (A : Type) : Type :=
| Ok (a : A)
| Raise (e : exn).
Arguments Ok {A} a.
Arguments Raise {A} e.

Definition rbind {A B : Type} (r : result A) (k : A -> result B) : result B :=
  match r with
  | Ok a => k a
  | Raise e => Raise e
  end.

Declare Scope result_scope.
Delimit Scope result_scope with result.
Notation "x <- c ;; k" := (rbind c (fun x => k))
  (at level 61, c at next level, right associativity) : result_scope.
Notation "' p <- c ;; k" := (rbind c (fun x => match x with p => k end))
  (at level 61, p pattern, c at next level, right associativity) : result_scope.

(** [for x in xs: acc = body(acc, x)] where the body may raise. *)
Fixpoint for_each {A S : Type} (body : S -> A -> result S) (xs : list A) (s : S)
  : result S :=
  match xs with
  | [] => Ok s
  | x :: xs' =>
      match body s x with
      | Ok s' => for_each body xs' s'
      | Raise e => Raise e
      end
  end.

(* ================================================================== *)
(** * Python sequence primitives *)
(* ================================================================== *)

Module Py.

(** [xs[i]] for a non-negative literal [i]. *)
Definition index {A : Type} (xs : list A) (i : nat) : result A :=
  match nth_error xs i with
  | Some x => Ok x
  | None => Raise IndexError
  end.

(** [xs[-1]]. *)
Fixpoint index_last {A : Type} (xs : list A) : result A :=
  match xs with
  | [] => Raise IndexError
  | [x] => Ok x
  | _ :: xs' => index_last xs'
  end.

(** [s[0]] on a string. *)
Definition str_index0 (s : string) : result ascii :=
  match s with
  | EmptyString => Raise IndexError
  | String c _ => Ok c
  end.

(** ** Character classes (CPython, ASCII range) *)

Definition code (c : ascii) : nat := nat_of_ascii c.

Definition is_upper (c : ascii) : bool := (65 <=? code c) && (code c <=? 90).
Definition is_lower (c : ascii) : bool := (97 <=? code c) && (code c <=? 122).
Definition is_digit (c : ascii) : bool := (48 <=? code c) && (code c <=? 57).
Definition is_alnum (c : ascii) : bool := is_upper c || is_lower c || is_digit c.

(** [str.isspace] for one character: TAB, LF, VT, FF, CR, FS, GS, RS, US
    and the space. *)
Definition is_space (c : ascii) : bool :=
  ((9 <=? code c) && (code c <=? 13)) || ((28 <=? code c) && (code c <=? 31))
  || (code c =? 32).

(** The line boundaries of [str.splitlines]: LF, VT, FF, CR, FS, GS, RS. *)
Definition is_linebreak (c : ascii) : bool :=
  ((10 <=? code c) && (code c <=? 13)) || ((28 <=? code c) && (code c <=? 30)).

Definition lower_char (c : ascii) : ascii :=
  if is_upper c then ascii_of_nat (code c + 32) else c.
Definition upper_char (c : ascii) : ascii :=
  if is_lower c then ascii_of_nat (code c - 32) else c.

Fixpoint map_str (f : ascii -> ascii) (s : string) : string :=
  match s with
  | EmptyString => EmptyString
  | String c s' => String (f c) (map_str f s')
  end.

Fixpoint all_str (p : ascii -> bool) (s : string) : bool :=
  match s with
  | EmptyString => true
  | String c s' => p c && all_str p s'
  end.

(** [s.lower()], [s.upper()], [s.capitalize()]. *)
Definition lower (s : string) : string := map_str lower_char s.
Definition upper (s : string) : string := map_str upper_char s.
Definition capitalize (s : string) : string :=
  match s with
  | EmptyString => EmptyString
  | String c s' => String (upper_char c) (lower s')
  end.

(** [s.isalnum()]: every character alphanumeric and at least one
    character. *)
Definition isalnum (s : string) : bool :=
  match s with
  | EmptyString => false
  | _ => all_str is_alnum s
  end.

(** The double-quote character. *)
Definition dquote : ascii := ascii_of_nat 34.

(** [s.startswith(p)]. *)
Definition startswith (p s : string) : bool := String.prefix p s.

(** [sub in s]. *)
Fixpoint contains (sub s : string) : bool :=
  String.prefix sub s ||
  match s with
  | EmptyString => false
  | String _ s' => contains sub s'
  end.

(** [s.replace(old, new)] for a non-empty [old]: left-to-right,
    non-overlapping.  [skip] counts the characters of a match that are
    still to be dropped. *)
Fixpoint replace_from (old new : string) (skip : nat) (s : string) : string :=
  match s with
  | EmptyString => EmptyString
  | String c s' =>
      match skip with
      | S k => replace_from old new k s'
      | O =>
          if String.prefix old s
          then new ++ replace_from old new (String.length old - 1) s'
          else String c (replace_from old new 0 s')
      end
  end.

Definition replace (old new s : string) : string := replace_from old new 0 s.

(** [s.split()]: maximal runs of non-space characters.  [cur] is the
    token being read. *)
Fixpoint split_from (cur : string) (s : string) : list string :=
  match s with
  | EmptyString => match cur with EmptyString => [] | _ => [cur] end
  | String c s' =>
      if is_space c
      then match cur with
           | EmptyString => split_from EmptyString s'
           | _ => cur :: split_from EmptyString s'
           end
      else split_from (cur ++ String c EmptyString) s'
  end.

Definition split (s : string) : list string := split_from EmptyString s.

(** [s.split(sep)] for a one-character separator: never empty, adjacent
    separators give empty fields. *)
Fixpoint split_on_from (sep : ascii) (cur : string) (s : string) : list string :=
  match s with
  | EmptyString => [cur]
  | String c s' =>
      if Ascii.eqb c sep
      then cur :: split_on_from sep EmptyString s'
      else split_on_from sep (cur ++ String c EmptyString) s'
  end.

Definition split_on (sep : ascii) (s : string) : list string :=
  split_on_from sep EmptyString s.

(** [s.splitlines()]: CR LF counts as one boundary and a final boundary
    opens no empty line. *)
Fixpoint splitlines_from (cur : string) (s : string) : list string :=
  match s with
  | EmptyString => match cur with EmptyString => [] | _ => [cur] end
  | String c s' =>
      if is_linebreak c
      then
        cur ::
        match s' with
        | String c' s'' =>
            if Ascii.eqb c "013" && Ascii.eqb c' "010"
            then splitlines_from EmptyString s''
            else splitlines_from EmptyString s'
        | EmptyString => []
        end
      else splitlines_from (cur ++ String c EmptyString) s'
  end.

Definition splitlines (s : string) : list string := splitlines_from EmptyString s.

(** [sep.join(xs)]. *)
Fixpoint join (sep : string) (xs : list string) : string :=
  match xs with
  | [] => EmptyString
  | [x] => x
  | x :: xs' => x ++ sep ++ join sep xs'
  end.

(** [s.strip()]. *)
Fixpoint lstrip (s : string) : string :=
  match s with
  | EmptyString => EmptyString
  | String c s' => if is_space c then lstrip s' else s
  end.

Fixpoint rstrip (s : string) : string :=
  match s with
  | EmptyString => EmptyString
  | String c s' =>
      match rstrip s' with
      | EmptyString => if is_space c then EmptyString else String c EmptyString
      | t => String c t
      end
  end.

Definition strip (s : string) : string := rstrip (lstrip s).

(** [s[i:j]] for literal [0 <= i <= j]. *)
Definition slice (i j : nat) (s : string) : string := String.substring i (j - i) s.

End Py.

(* ================================================================== *)
(** * The standard-library pieces the module calls *)
(* ================================================================== *)

Module ipaddress.

(** An [IPv4Address] object holds the address as a 32-bit integer. *)
Record IPv4Address_obj : Type := { _ip : Z }.

Fixpoint digits_value (acc : nat) (s : string) : nat :=
  match s with
  | EmptyString => acc
  | String c s' => digits_value (10 * acc + (Py.code c - 48)) s'
  end.

(** [_parse_octet]: one to three ASCII digits, no leading zero unless the
    octet is ["0"], value at most 255. *)
Definition _parse_octet (octet_str : string) : result Z :=
  match octet_str with
  | EmptyString => Raise ValueError
  | String c0 _ =>
      if negb (Py.all_str Py.is_digit octet_str) then Raise ValueError
      else if 3 <? String.length octet_str then Raise ValueError
      else if negb (String.eqb octet_str "0") && Ascii.eqb c0 "0" then Raise ValueError
      else
        let octet_int := digits_value 0 octet_str in
        if 255 <? octet_int then Raise ValueError else Ok (Z.of_nat octet_int)
  end.

(** The four octets, most significant first, as one 32-bit integer. *)
Definition quad (a b c d : Z) : Z :=
  Z.lor (Z.shiftl a 24) (Z.lor (Z.shiftl b 16) (Z.lor (Z.shiftl c 8) d)).

(** [IPv4Address(address)] for a string argument.  The [ValueError] of an
    octet is re-raised as [AddressValueError]. *)
Definition IPv4Address (address : string) : result IPv4Address_obj :=
  if Py.contains "/" address then Raise AddressValueError
  else
    match address with
    | EmptyString => Raise AddressValueError
    | _ =>
        match map _parse_octet (Py.split_on "." address) with
        | [Ok a; Ok b; Ok c; Ok d] =>
            Ok {| _ip := quad a b c d |}
        | _ => Raise AddressValueError
        end
    end.

(** [address in IPv4Network(net/len)]. *)
Definition in_network (net : Z) (prefixlen : Z) (x : IPv4Address_obj) : bool :=
  let netmask := Z.shiftl (Z.ones prefixlen) (32 - prefixlen) in
  Z.eqb (Z.land (_ip x) netmask) net.

(** The networks of [IPv4Address.is_private] (the IANA special-purpose
    registry as CPython 3.10 lists it). *)
Definition _private_networks : list (Z * Z) :=
  [ (quad 0 0 0 0, 8); (quad 10 0 0 0, 8); (quad 127 0 0 0, 8);
    (quad 169 254 0 0, 16); (quad 172 16 0 0, 12); (quad 192 0 0 0, 29);
    (quad 192 0 0 170, 31); (quad 192 0 2 0, 24); (quad 192 168 0 0, 16);
    (quad 198 18 0 0, 15); (quad 198 51 100 0, 24); (quad 203 0 113 0, 24);
    (quad 240 0 0 0, 4); (quad 255 255 255 255, 32) ]%Z.

Definition is_private (x : IPv4Address_obj) : bool :=
  existsb (fun net => in_network (fst net) (snd net) x) _private_networks.

End ipaddress.

Module builtins.

(** [int(s)] for a string: surrounding white space, an optional sign and
    decimal digits, single underscores allowed between digits. *)
Fixpoint int_digits (acc : Z) (prev_digit : bool) (s : string) : result Z :=
  match s with
  | EmptyString => if prev_digit then Ok acc else Raise ValueError
  | String c s' =>
      if Py.is_digit c
      then int_digits (10 * acc + Z.of_nat (Py.code c - 48)) true s'
      else if Ascii.eqb c "_" && prev_digit
           then int_digits acc false s'
           else Raise ValueError
  end.

Definition int_of_str (s : string) : result Z :=
  match Py.strip s with
  | String "-" ds => rbind (int_digits 0 false ds) (fun z => Ok (- z)%Z)
  | String "+" ds => int_digits 0 false ds
  | ds => int_digits 0 false ds
  end.

(** [int(x)] where [x] is a string or [None]. *)
Definition int (x : option string) : result Z :=
  match x with
  | None => Raise TypeError
  | Some s => int_of_str s
  end.

(** [str(x)] where [x] is a string or [None]. *)
Definition str (x : option string) : string :=
  match x with
  | None => "None"
  | Some s => s
  end.

End builtins.

(* ================================================================== *)
(** * Text normalizer *)
(* ================================================================== *)

Definition assert_ (b : bool) : result unit :=
  if b then Ok tt else Raise AssertionError.

(** The first two statements of the [try] block of [format_mac_address]:
    the address without delimiters and white space, in lower case. *)
Definition bare_mac (mac_address : string) : string :=
  (* remove delimiters and convert to lowercase *)
  let mac := Py.lower (Py.replace "-" "" (Py.replace ":" "" (Py.replace "." "" mac_address))) in
  (* remove whitespaces *)
  Py.join "" (Py.split mac).

(** [':'.join(mac[i:i + 2] for i in range(0, 12, 2))] *)
Definition colon_pairs (mac : string) : string :=
  Py.join ":" (map (fun i => Py.slice i (i + 2) mac) [0; 2; 4; 6; 8; 10]).

(** The body of the [try] block of [format_mac_address]. *)
Definition format_mac_address_try (mac_address : string) : result string :=
  let mac := bare_mac mac_address in
  (* MAC address must be alphanumeric and length 12 *)
  (_ <- assert_ (String.length mac =? 12) ;;
   _ <- assert_ (Py.isalnum mac) ;;
   Ok (colon_pairs mac))%result.

Definition format_mac_address (mac_address : string) : string :=
  match format_mac_address_try mac_address with
  | Ok mac => mac
  | Raise _ => mac_address
  end.

(* ================================================================== *)
(** * Data model *)
(* ================================================================== *)

(** A Python [dict] with string keys: insertion-ordered, keys unique. *)
Definition dict (V : Type) : Type := list (string * V).

Fixpoint dict_get {V : Type} (d : dict V) (k : string) : option V :=
  match d with
  | [] => None
  | (k', v) :: d' => if String.eqb k' k then Some v else dict_get d' k
  end.

Definition dict_mem {V : Type} (d : dict V) (k : string) : bool :=
  match dict_get d k with Some _ => true | None => false end.

(** [d[k] = v]: an existing key keeps its position. *)
Fixpoint dict_set {V : Type} (d : dict V) (k : string) (v : V) : dict V :=
  match d with
  | [] => [(k, v)]
  | (k', v') :: d' =>
      if String.eqb k' k then (k', v) :: d' else (k', v') :: dict_set d' k v
  end.

(** [{'address': ..., 'interface': ...}] *)
Record NextHop : Type := {
  nh_address : option string;
  nh_interface : option string
}.

(** [{'route': ..., 'kind': ..., 'next_hop': [...]}]; [r_next_hop = None]
    stands for a dict without the ['next_hop'] key. *)
Record Route : Type := {
  r_route : string;
  r_kind : string;
  r_next_hop : option (list NextHop)
}.

Record Vrf : Type := {
  vrf_name : string;
  vrf_interfaces : option (list string);
  vrf_routes : list Route
}.

Inductive RouteNeighbor : Type :=
| OSPF_neighbor (neighbor_address neighbor_id connection_state
                 connected_interface priority : string)
| BGP_neighbor (neighbor_address neighbor_as_num : string).

Record MacAddress : Type := {
  mac_address : string;
  vlan_id : string
}.

Record MacEntry : Type := {
  mac_interface : string;
  mac_addresses : list MacAddress
}.

Record InventoryItem : Type := {
  inv_name : string;
  inv_descr : string;
  inv_pid : string;
  inv_vid : option string;
  inv_sn : option string
}.

Record Ipv4Entry : Type := {
  subnet : string;
  address : option string
}.

Record Interface : Type := {
  mtu : Z;
  ipv4 : list Ipv4Entry;
  type_ : option string;
  duplex : option string;
  bandwidth : Z;
  mediatype : option string;
  macaddress : option string;
  operstatus : string;
  description : option string;
  lineprotocol : string
}.

(** The value stored under one [ansible_net_*] key. *)
Inductive fact : Type :=
| fact_None
| fact_interfaces (d : dict Interface)
| fact_inventory (l : list InventoryItem)
| fact_license (s : string)
| fact_mac_address_table (l : list MacEntry)
| fact_routes (l : list Route)
| fact_route_neighbors (l : list RouteNeighbor)
| fact_vrfs (l : list Vrf).

(** The [result] dict that [module.exit_json] hands back. *)
Record module_result : Type := {
  changed : bool;
  ansible_facts : dict fact
}.

Definition ROUTE_TYPES : list string := ["BGP"; "connected"; "OSPF"; "static"].

(** [x in xs] on strings. *)
Definition str_in (x : string) (xs : list string) : bool :=
  existsb (String.eqb x) xs.

(* ================================================================== *)
(** * Route parsers: the per-line loops *)
(* ================================================================== *)

Local Open Scope result_scope.

(** The test both parsers apply before they keep a route (source lines
    214-215 and 286-287):
    [addr_obj = ipaddress.IPv4Address(route.split('/')[0])] followed by
    [addr_obj.is_private or route == '0.0.0.0/0'
       or route_type.lower() == 'connected']. *)
Definition is_routable_for_collection (route route_type : string) : result bool :=
  part <- Py.index (Py.split_on "/" route) 0 ;;
  addr_obj <- ipaddress.IPv4Address part ;;
  Ok (ipaddress.is_private addr_obj
      || String.eqb route "0.0.0.0/0"
      || String.eqb (Py.lower route_type) "connected").

(** The same test in the OSPF branch of the IOS parser (lines 243-244 and
    251-252), which has no [connected] disjunct. *)
Definition is_routable_ospf (route : string) : result bool :=
  part <- Py.index (Py.split_on "/" route) 0 ;;
  addr_obj <- ipaddress.IPv4Address part ;;
  Ok (ipaddress.is_private addr_obj || String.eqb route "0.0.0.0/0").

Module ios.

(** [route_type.capitalize() if route_type.lower() not in
    ['bgp', 'eigrp', 'isis'] else route_type.upper()] *)
Definition kind_of (route_type : string) : string :=
  if negb (str_in (Py.lower route_type) ["bgp"; "eigrp"; "isis"])
  then Py.capitalize route_type
  else Py.upper route_type.

(** Body of the loop of the non-OSPF branch. *)
Definition line_step (route_type first_letter : string)
  (routes : list Route) (line : string) : result (list Route) :=
  if Py.startswith (first_letter ++ " ") line || Py.startswith (first_letter ++ "*") line
  then
    let splitter := Py.split line in
    (* make sure we're only getting private routes and directly connected routes *)
    route <- Py.index splitter 1 ;;
    keep <- is_routable_for_collection route route_type ;;
    if keep
    then
      next_hop <-
        (if Py.contains "directly connected" line
         then
           last <- Py.index_last splitter ;;
           Ok (Some [ {| nh_address := None; nh_interface := Some last |} ])
         else if Py.contains " via " line
         then
           tok <- Py.index splitter 4 ;;
           Ok (Some [ {| nh_address := Some (Py.replace "," "" tok);
                         nh_interface := None |} ])
         else Ok None) ;;
      Ok (routes ++ [ {| r_route := route; r_kind := kind_of route_type;
                         r_next_hop := next_hop |} ])
    else Ok routes
  else Ok routes.

(** The [while route in ['E1', 'E2', 'IA', 'N1', 'N2']] loop.  Every turn
    reads [splitter[n]] at a larger [n], so Python leaves the loop with
    an [IndexError] after fewer than [len(splitter)] turns; [fuel] is
    that bound. *)
Fixpoint skip_suffixes (fuel : nat) (splitter : list string) (r n : nat)
  (route next_hop_address : string) : result (string * string) :=
  if str_in route ["E1"; "E2"; "IA"; "N1"; "N2"]
  then
    match fuel with
    | O => Raise IndexError
    | S fuel' =>
        route' <- Py.index splitter (r + 1) ;;
        next_hop_address' <- Py.index splitter (n + 1) ;;
        skip_suffixes fuel' splitter (r + 1) (n + 1) route' next_hop_address'
    end
  else Ok (route, next_hop_address).

(** The variables the OSPF loop carries from line to line.  [route] is
    unbound until the first [O] line assigns it. *)
Record ospf_state : Type := {
  first_line : bool;
  route : option string;
  routes : list Route
}.

Definition read_route (st : ospf_state) : result string :=
  match route st with
  | Some r => Ok r
  | None => Raise UnboundLocalError
  end.

(** Body of the loop of the OSPF branch. *)
Definition ospf_line_step (st : ospf_state) (line : string) : result ospf_state :=
  if Py.startswith "O " line || Py.startswith "O*" line
  then
    let splitter := Py.split line in
    if List.length splitter <? 3
    then
      r <- Py.index splitter 1 ;;
      Ok {| first_line := false; route := Some r; routes := routes st |}
    else
      route0 <- Py.index splitter 1 ;;
      next_hop_address0 <- Py.index splitter 4 ;;
      '(r, next_hop_address) <-
        skip_suffixes (List.length splitter) splitter 1 4 route0 next_hop_address0 ;;
      keep <- is_routable_ospf r ;;
      if keep
      then
        last <- Py.index_last splitter ;;
        Ok {| first_line := true; route := Some r;
              routes := routes st ++
                [ {| r_route := r; r_kind := "OSPF";
                     r_next_hop := Some
                       [ {| nh_address := Some (Py.replace "," "" next_hop_address);
                            nh_interface := Some last |} ] |} ] |}
      else Ok {| first_line := true; route := Some r; routes := routes st |}
  else if negb (first_line st)
  then
    let splitter := Py.split line in
    (* make sure this is a private route *)
    r <- read_route st ;;
    keep <- is_routable_ospf r ;;
    if keep
    then
      tok <- Py.index splitter 2 ;;
      last <- Py.index_last splitter ;;
      Ok {| first_line := first_line st; route := route st;
            routes := routes st ++
              [ {| r_route := r; r_kind := "OSPF";
                   r_next_hop := Some
                     [ {| nh_address := Some (Py.replace "," "" tok);
                          nh_interface := Some last |} ] |} ] |}
    else Ok st
  else Ok st.

(** Everything of [_get_routes_ios] after [lines = stdout[1].splitlines()]. *)
Definition parse_lines (route_type : string) (lines : list string)
  : result (list Route) :=
  if negb (String.eqb (Py.lower route_type) "ospf")
  then
    c <- Py.str_index0 route_type ;;
    let first_letter := Py.upper (String c EmptyString) in
    for_each (line_step route_type first_letter) lines []
  else
    st <- for_each ospf_line_step lines
            {| first_line := true; route := None; routes := [] |} ;;
    Ok (routes st).

End ios.

Module nxos.

(** [route_type.capitalize() if route_type.lower() not in
    ['bgp', 'eigrp', 'isis', 'ospf'] else route_type.upper()] *)
Definition kind_of (route_type : string) : string :=
  if negb (str_in (Py.lower route_type) ["bgp"; "eigrp"; "isis"; "ospf"])
  then Py.capitalize route_type
  else Py.upper route_type.

(** The loop mutates the dict bound to [route_obj] after it may already
    have been appended to [routes], so dicts live in a store ([heap]) and
    [routes] and [route_obj] hold references into it. *)
Definition ref : Type := nat.

Record state : Type := {
  heap : list Route;
  routes : list ref;
  next_hops : list NextHop;
  route_obj : option ref
}.

(** [route_obj['next_hop'] = next_hops] *)
Fixpoint set_next_hop (h : list Route) (r : ref) (hops : list NextHop) : list Route :=
  match h, r with
  | [], _ => []
  | x :: h', O =>
      {| r_route := r_route x; r_kind := r_kind x; r_next_hop := Some hops |} :: h'
  | x :: h', S r' => x :: set_next_hop h' r' hops
  end.

(** The [try]/[except] of a [via] line: any exception raised inside the
    [try], the [IndexError] of [splitter[2]] included, selects the
    handler. *)
Definition via_hop (route_type : string) (splitter : list string)
  (next_hop_address : string) : NextHop :=
  match
    (_ <- ipaddress.IPv4Address next_hop_address ;;
     if String.eqb (Py.lower route_type) "connected"
        || String.eqb (Py.lower route_type) "ospf"
     then i <- Py.index splitter 2 ;; Ok (Some i)
     else Ok None)
  with
  | Ok next_hop_interface =>
      {| nh_address := Some next_hop_address; nh_interface := next_hop_interface |}
  | Raise _ =>
      {| nh_address := None; nh_interface := Some next_hop_address |}
  end.

(** The next hop a [via] line stands for. *)
Definition parse_via (route_type : string) (line : string) : result NextHop :=
  let splitter := Py.split (Py.replace "," "" line) in
  tok <- Py.index splitter 1 ;;
  next_hop_address <- Py.index (Py.split_on "%" tok) 0 ;;
  Ok (via_hop route_type splitter next_hop_address).

(** The prefix a [ubest] line announces. *)
Definition parse_ubest (line : string) : result string :=
  tok <- Py.index (Py.split line) 0 ;;
  Ok (Py.replace "," "" tok).

(** Body of the loop. *)
Definition line_step (route_type : string) (st : state) (line : string)
  : result state :=
  if Py.contains "ubest" line
  then
    let st1 :=
      match route_obj st with
      | Some r =>
          {| heap := set_next_hop (heap st) r (next_hops st);
             routes := routes st ++ [r];
             next_hops := next_hops st;
             route_obj := route_obj st |}
      | None => st
      end in
    route <- parse_ubest line ;;
    keep <- is_routable_for_collection route route_type ;;
    if keep
    then
      Ok {| heap := heap st1 ++
              [ {| r_route := route; r_kind := kind_of route_type;
                   r_next_hop := None |} ];
            routes := routes st1;
            next_hops := [];
            route_obj := Some (List.length (heap st1)) |}
    else
      Ok {| heap := heap st1; routes := routes st1; next_hops := [];
            route_obj := route_obj st1 |}
  else if Py.contains "via" line
  then
    match route_obj st with
    | Some _ =>
        hop <- parse_via route_type line ;;
        Ok {| heap := heap st; routes := routes st;
              next_hops := next_hops st ++ [hop];
              route_obj := route_obj st |}
    | None => Ok st
    end
  else Ok st.

(** The statements after the loop: [if next_hops: ...; return routes]. *)
Definition finish (st : state) : result (list Route) :=
  st' <-
    match next_hops st with
    | [] => Ok st
    | _ :: _ =>
        match route_obj st with
        | Some r =>
            Ok {| heap := set_next_hop (heap st) r (next_hops st);
                  routes := routes st ++ [r];
                  next_hops := next_hops st;
                  route_obj := route_obj st |}
        | None => Raise TypeError
        end
    end ;;
  for_each (fun acc r => x <- Py.index (heap st') r ;; Ok (acc ++ [x]))
           (routes st') [].

(** Everything of [_get_routes_nxos] after [lines = stdout[1].splitlines()]. *)
Definition parse_lines (route_type : string) (lines : list string)
  : result (list Route) :=
  st <- for_each (line_step route_type) lines
          {| heap := []; routes := []; next_hops := []; route_obj := None |} ;;
  finish st.

End nxos.

(* ================================================================== *)
(** * Fact extractors: the per-line loops *)
(* ================================================================== *)

Module neighbors.

(** Body of the OSPF loop of [get_route_neighbors]: the tuple assignment
    needs exactly six columns. *)
Definition ospf_line_step (route_neighbors : list RouteNeighbor) (line : string)
  : result (list RouteNeighbor) :=
  let line := Py.replace " -" "" line in
  let splitter := Py.split line in
  match splitter with
  | [neighbor_id; priority; connection_state; dead_time; neighbor_address;
     connected_interface] =>
      Ok (route_neighbors ++
            [OSPF_neighbor neighbor_address neighbor_id connection_state
               connected_interface priority])
  | _ => Raise ValueError
  end.

(** Body of the BGP loop: the [try] guards the address test only. *)
Definition bgp_line_step (route_neighbors : list RouteNeighbor) (line : string)
  : result (list RouteNeighbor) :=
  let splitter := Py.split line in
  match (first <- Py.index splitter 0 ;; ipaddress.IPv4Address first) with
  | Raise _ => Ok route_neighbors (* continue *)
  | Ok _ =>
      first <- Py.index splitter 0 ;;
      as_num <- Py.index splitter 2 ;;
      Ok (route_neighbors ++ [BGP_neighbor first as_num])
  end.

End neighbors.

Module mac_table.

(** [mac_address_table[interface].append(entry)], the list being created
    on first use. *)
Definition add_entry (table : dict (list MacAddress)) (interface : string)
  (entry : MacAddress) : dict (list MacAddress) :=
  let table := if negb (dict_mem table interface)
               then dict_set table interface [] else table in
  match dict_get table interface with
  | Some entries => dict_set table interface (entries ++ [entry])
  | None => table
  end.

Definition line_step (table : dict (list MacAddress)) (line : string)
  : result (dict (list MacAddress)) :=
  if Py.startswith "* " line
  then
    let splitter := Py.split line in
    vlan <- Py.index splitter 1 ;;
    raw <- Py.index splitter 2 ;;
    let mac := format_mac_address raw in
    interface <- Py.index splitter 7 ;;
    Ok (add_entry table interface {| mac_address := mac; vlan_id := vlan |})
  else Ok table.

(** Everything of [get_mac_address_table] after the command. *)
Definition parse_lines (lines : list string) : result (option (list MacEntry)) :=
  table <- for_each line_step lines [] ;;
  let mac_address_table_list :=
    map (fun kv => {| mac_interface := fst kv; mac_addresses := snd kv |}) table in
  Ok (if 0 <? List.length mac_address_table_list
      then Some mac_address_table_list else None).

End mac_table.

Module inventory.

(** The loop variables of [get_inventory]; [name] and [descr] are unbound
    until a [NAME:] line assigns them. *)
Record state : Type := {
  name : option string;
  descr : option string;
  items : list InventoryItem
}.

Definition read_var (v : option string) : result string :=
  match v with
  | Some x => Ok x
  | None => Raise UnboundLocalError
  end.

Definition line_step (st : state) (line : string) : result state :=
  if Py.startswith "NAME:" line
  then
    let splitter := Py.split_on Py.dquote line in
    n <- Py.index splitter 1 ;;
    d <- Py.index splitter 3 ;;
    Ok {| name := Some n; descr := Some d; items := items st |}
  else if Py.startswith "PID:" line
  then
    let splitter := Py.split (Py.replace "," "" line) in
    pid <- Py.index splitter 1 ;;
    '(vid, sn) <-
      (if 4 <? List.length splitter
       then
         v <- Py.index splitter 3 ;;
         s <- Py.index splitter 5 ;;
         Ok (Some v, Some s)
       else Ok (None, None)) ;;
    n <- read_var (name st) ;;
    d <- read_var (descr st) ;;
    Ok {| name := name st; descr := descr st;
          items := items st ++
            [ {| inv_name := n; inv_descr := d; inv_pid := pid;
                 inv_vid := vid; inv_sn := sn |} ] |}
  else Ok st.

(** Everything of [get_inventory] after the command. *)
Definition parse_lines (lines : list string) : result (list InventoryItem) :=
  st <- for_each line_step lines {| name := None; descr := None; items := [] |} ;;
  Ok (items st).

End inventory.

Module vrf.

(** The name and the interface list a row of [show vrf] gives. *)
Definition parse_row (line : string) : result (string * option (list string)) :=
  let splitter := Py.split line in
  vrf_name <- Py.index splitter 0 ;;
  last <- Py.index_last splitter ;;
  if negb (Py.startswith "ipv" last)
  then
    let vrf_interfaces := Py.split_on "," last in
    first <- Py.index vrf_interfaces 0 ;;
    if String.eqb first "--"
    then Ok (vrf_name, None)
    else Ok (vrf_name, Some vrf_interfaces)
  else Ok (vrf_name, None).

End vrf.

Module interfaces.

(** The variables the detail loop of [_get_interfaces_nxos] fills in. *)
Record detail : Type := {
  iface_mtu : option string;
  iface_subnet_mask : option string;
  iface_ip_address : option string;
  iface_type : option string;
  iface_duplex : option string;
  iface_bandwidth : option string;
  iface_mediatype : option string;
  iface_mac_address : option string;
  iface_description : option string
}.

Definition no_detail : detail :=
  {| iface_mtu := None; iface_subnet_mask := None; iface_ip_address := None;
     iface_type := None; iface_duplex := None; iface_bandwidth := None;
     iface_mediatype := None; iface_mac_address := None;
     iface_description := None |}.

Definition set_type_mac (d : detail) (t : string) (m : option string) : detail :=
  {| iface_mtu := iface_mtu d; iface_subnet_mask := iface_subnet_mask d;
     iface_ip_address := iface_ip_address d; iface_type := Some t;
     iface_duplex := iface_duplex d; iface_bandwidth := iface_bandwidth d;
     iface_mediatype := iface_mediatype d; iface_mac_address := m;
     iface_description := iface_description d |}.

(** [try: iface_mac_address = format_mac_address(...) except: pass] *)
Definition try_mac (d : detail) (raw : result string) : option string :=
  match raw with
  | Ok m => Some (format_mac_address m)
  | Raise _ => iface_mac_address d
  end.

Definition detail_step (d : detail) (line2 : string) : result detail :=
  if Py.contains "Hardware:" line2
  then
    let splitter2 := Py.split_on "," line2 in
    head <- Py.index splitter2 0 ;;
    t <- Py.index (Py.split_on ":" head) 1 ;;
    Ok (set_type_mac d (Py.strip t)
          (try_mac d (f <- Py.index splitter2 1 ;;
                      l <- Py.index_last (Py.split f) ;;
                      Ok (Py.replace ")" "" l))))
  else if Py.contains "Hardware is" line2
  then
    let splitter2 := Py.split_on "," line2 in
    head <- Py.index splitter2 0 ;;
    Ok (set_type_mac d (Py.join "" (skipn 2 (Py.split head)))
          (try_mac d (f <- Py.index splitter2 1 ;;
                      Py.index_last (Py.split f))))
  else if Py.contains "Description:" line2
  then
    t <- Py.index (Py.split_on ":" line2) 1 ;;
    Ok {| iface_mtu := iface_mtu d; iface_subnet_mask := iface_subnet_mask d;
          iface_ip_address := iface_ip_address d; iface_type := iface_type d;
          iface_duplex := iface_duplex d; iface_bandwidth := iface_bandwidth d;
          iface_mediatype := iface_mediatype d;
          iface_mac_address := iface_mac_address d;
          iface_description := Some (Py.strip t) |}
  else if Py.contains "Internet Address" line2
  then
    last <- Py.index_last (Py.split line2) ;;
    match Py.split_on "/" last with
    | [ip; mask] =>
        Ok {| iface_mtu := iface_mtu d; iface_subnet_mask := Some mask;
              iface_ip_address := Some ip; iface_type := iface_type d;
              iface_duplex := iface_duplex d; iface_bandwidth := iface_bandwidth d;
              iface_mediatype := iface_mediatype d;
              iface_mac_address := iface_mac_address d;
              iface_description := iface_description d |}
    | _ => Raise ValueError
    end
  else if Py.contains "MTU" line2
  then
    let splitter2 := Py.split_on "," line2 in
    f0 <- Py.index splitter2 0 ;;
    m <- Py.index (Py.split f0) 1 ;;
    f1 <- Py.index splitter2 1 ;;
    b <- Py.index (Py.split f1) 1 ;;
    Ok {| iface_mtu := Some m; iface_subnet_mask := iface_subnet_mask d;
          iface_ip_address := iface_ip_address d; iface_type := iface_type d;
          iface_duplex := iface_duplex d; iface_bandwidth := Some b;
          iface_mediatype := iface_mediatype d;
          iface_mac_address := iface_mac_address d;
          iface_description := iface_description d |}
  else if Py.contains "duplex" line2
  then
    let splitter2 := Py.split_on "," line2 in
    f0 <- Py.index splitter2 0 ;;
    last <- Py.index_last splitter2 ;;
    Ok {| iface_mtu := iface_mtu d; iface_subnet_mask := iface_subnet_mask d;
          iface_ip_address := iface_ip_address d; iface_type := iface_type d;
          iface_duplex := Some (if negb (Py.contains "full" f0) then "half" else "full");
          iface_bandwidth := iface_bandwidth d;
          iface_mediatype := Some (Py.strip (Py.replace "media type is" "" last));
          iface_mac_address := iface_mac_address d;
          iface_description := iface_description d |}
  else Ok d.

(** The dict literal stored under [interfaces[iface_name]]. *)
Definition make (d : detail) (iface_operstatus iface_lineprotocol : string)
  : result Interface :=
  m <- builtins.int (iface_mtu d) ;;
  b <- builtins.int (iface_bandwidth d) ;;
  Ok {| mtu := m;
        ipv4 := [ {| subnet := builtins.str (iface_subnet_mask d);
                     address := iface_ip_address d |} ];
        type_ := iface_type d; duplex := iface_duplex d; bandwidth := b;
        mediatype := iface_mediatype d; macaddress := iface_mac_address d;
        operstatus := iface_operstatus; description := iface_description d;
        lineprotocol := iface_lineprotocol |}.

(** The status codes of a row of the brief table. *)
Definition parse_status (splitter : list string) : result (string * string) :=
  last <- Py.index_last splitter ;;
  let iface_status := Py.split_on "/" last in
  s0 <- Py.index iface_status 0 ;;
  iface_lineprotocol <- Py.index_last (Py.split_on "-" s0) ;;
  s1 <- Py.index iface_status 1 ;;
  iface_operstatus <- Py.index_last (Py.split_on "-" s1) ;;
  Ok (iface_lineprotocol, iface_operstatus).

(** Everything of the body of the outer loop after [show interf] has
    answered with [lines2]. *)
Definition parse_detail (lines2 : list string) (iface_lineprotocol iface_operstatus : string)
  : result (string * Interface) :=
  l0 <- Py.index lines2 0 ;;
  iface_name <- Py.index (Py.split l0) 0 ;;
  d <- for_each detail_step (skipn 1 lines2) no_detail ;;
  i <- make d iface_operstatus iface_lineprotocol ;;
  Ok (iface_name, i).

End interfaces.

Local Close Scope result_scope.

(* ================================================================== *)
(** * The device session and the log *)
(* ================================================================== *)

(** What the module writes through [logging]. *)
Inductive log_record : Type :=
| warning_exn (e : exn)      (* logging.warning(e) *)
| warning (msg : string)
| error (msg : string).

Section Session.

(** The command runner is not part of the module: [run_commands] sends a
    list of commands over the session and answers with one output per
    command, or raises.  [check_rc] is passed on as it is. *)
Variable Dev : Type.
Variable send : Dev -> list string -> bool -> result (list string) * Dev.

(** What running a computation leaves behind: its value or exception,
    the session afterwards and the records it logged.  The module only
    ever writes to the log, and both the session and the log survive a
    raised exception, as they do in Python. *)
Record outcome (A : Type) : Type := {
  value : result A;
  session : Dev;
  logged : list log_record
}.

(** A computation that talks to the device, logs and may raise. *)
Definition M (A : Type) : Type := Dev -> outcome A.

Definition ret {A : Type} (a : A) : M A :=
  fun d => {| value := Ok a; session := d; logged := [] |}.

Definition bind {A B : Type} (c : M A) (k : A -> M B) : M B :=
  fun d =>
    let o := c d in
    match value o with
    | Ok a =>
        let o' := k a (session o) in
        {| value := value o'; session := session o';
           logged := logged o ++ logged o' |}
    | Raise e => {| value := Raise e; session := session o; logged := logged o |}
    end.

Definition lift {A : Type} (r : result A) : M A :=
  fun d => {| value := r; session := d; logged := [] |}.

(** [try: c except Exception as e: handler(e)] *)
Definition try_except {A : Type} (c : M A) (handler : exn -> M A) : M A :=
  fun d =>
    let o := c d in
    match value o with
    | Ok a => o
    | Raise e =>
        let o' := handler e (session o) in
        {| value := value o'; session := session o';
           logged := logged o ++ logged o' |}
    end.

Definition logging (r : log_record) : M unit :=
  fun d => {| value := Ok tt; session := d; logged := [r] |}.

Definition run_commands (commands : list string) (check_rc : bool) : M (list string) :=
  fun d =>
    let '(r, d') := send d commands check_rc in
    {| value := r; session := d'; logged := [] |}.

Declare Scope world_scope.
Delimit Scope world_scope with world.
Notation "x <- c ;; k" := (bind c (fun x => k))
  (at level 61, c at next level, right associativity) : world_scope.
Notation "' p <- c ;; k" := (bind c (fun x => match x with p => k end))
  (at level 61, p pattern, c at next level, right associativity) : world_scope.
Local Open Scope world_scope.

(** [for x in xs: acc = body(acc, x)] with effects. *)
Fixpoint for_eachM {A S : Type} (body : S -> A -> M S) (xs : list A) (s : S) : M S :=
  match xs with
  | [] => ret s
  | x :: xs' => s' <- body s x ;; for_eachM body xs' s'
  end.

(** [if vrf:] on an optional string. *)
Definition truthy (vrf : option string) : bool :=
  match vrf with
  | Some (String _ _) => true
  | _ => false
  end.

(** [stdout = run_commands(module, ['term len 0', cmd]); stdout[1]] *)
Definition command_output (cmd : string) (check_rc : bool) : M string :=
  stdout <- run_commands ["term len 0"; cmd] check_rc ;;
  lift (Py.index stdout 1).

(* ================================================================== *)
(** * The functions of the module *)
(* ================================================================== *)

(** [get_device_type] is never called.  Its second statement subscripts
    the bound method [stdout[1].splitlines], which raises [TypeError]
    once the command has answered. *)
Definition get_device_type : M string :=
  let cmd := "show inventory | include Chassis" in
  stdout <- run_commands ["term len 0"; cmd] true ;;
  _ <- lift (Py.index stdout 1) ;;
  lift (Raise TypeError).

(** The [cmd] of [_get_routes_ios]. *)
Definition ios_command (route_type : string) (vrf : option string) : string :=
  if truthy vrf
  then "show ip route vrf " ++ builtins.str vrf ++ " secondary " ++ Py.lower route_type
  else "show ip route secondary " ++ Py.lower route_type.

Definition _get_routes_ios (route_type : string) (vrf : option string)
  : M (list Route) :=
  let cmd := ios_command route_type vrf in
  out <- command_output cmd true ;;
  let lines := Py.splitlines out in
  lift (ios.parse_lines route_type lines).

(** The [cmd] of [_get_routes_nxos]: [connected] is asked for as
    [direct]. *)
Definition nxos_command (route_type : string) (vrf : option string) : string :=
  let route_type_aliases : dict string := [("connected", "direct")] in
  let rt :=
    match dict_get route_type_aliases route_type with
    | Some alias => alias
    | None => route_type
    end in
  if truthy vrf
  then "show ip route vrf " ++ builtins.str vrf ++ " " ++ Py.lower rt ++ " | begin ubest"
  else "show ip route " ++ Py.lower rt ++ " | begin ubest".

Definition _get_routes_nxos (route_type : string) (vrf : option string)
  : M (list Route) :=
  let cmd := nxos_command route_type vrf in
  out <- command_output cmd true ;;
  let lines := Py.splitlines out in
  lift (nxos.parse_lines route_type lines).

Definition get_routes (operating_system route_type : string) (vrf : option string)
  : M (list Route) :=
  if String.eqb (Py.upper operating_system) "IOS"
  then _get_routes_ios route_type vrf
  else if String.eqb (Py.upper operating_system) "NXOS"
  then _get_routes_nxos route_type vrf
  else
    _ <- logging (error "Unknown operating system") ;;
    ret [].

(** The inner loop shared by [get_vrfs] and [run_module]:
    [for route_type in ROUTE_TYPES: try: routes.extend(get_routes(...))
     except Exception as e: logging.warning(e)]. *)
Definition collect_routes (operating_system : string) (vrf : option string)
  : M (list Route) :=
  for_eachM
    (fun routes route_type =>
       try_except
         (found <- get_routes operating_system route_type vrf ;;
          ret (routes ++ found))
         (fun e => _ <- logging (warning_exn e) ;; ret routes))
    ROUTE_TYPES [].

Definition get_vrfs (operating_system : string) : M (list Vrf) :=
  out <- command_output "show vrf" true ;;
  let lines := Py.splitlines out in
  if 1 <? List.length lines
  then
    for_eachM
      (fun vrfs line =>
         '(name, interfaces) <- lift (vrf.parse_row line) ;;
         routes <- collect_routes operating_system (Some name) ;;
         ret (vrfs ++ [ {| vrf_name := name; vrf_interfaces := interfaces;
                           vrf_routes := routes |} ]))
      (skipn 1 lines) []
  else ret [].

Definition get_route_neighbors : M (list RouteNeighbor) :=
  (* get OSPF neighbors *)
  out <- command_output "show ip ospf neighbor | begin Neighbor" true ;;
  let lines := skipn 1 (Py.splitlines out) in
  route_neighbors <- lift (for_each neighbors.ospf_line_step lines []) ;;
  (* get BGP neighbors *)
  out <- command_output "show ip bgp summary | begin Neighbor" true ;;
  let lines := skipn 1 (Py.splitlines out) in
  lift (for_each neighbors.bgp_line_step lines route_neighbors).

Definition get_mac_address_table : M (option (list MacEntry)) :=
  out <- command_output "show mac address-table dynamic" false ;;
  lift (mac_table.parse_lines (Py.splitlines out)).

Definition get_inventory : M (list InventoryItem) :=
  out <- command_output "show inventory" true ;;
  lift (inventory.parse_lines (Py.splitlines out)).

Definition _get_interfaces_nxos : M (dict Interface) :=
  out <- command_output "show ip interf br oper vrf all" true ;;
  let lines := Py.splitlines out in
  for_eachM
    (fun interfaces line =>
       let splitter := Py.split line in
       if List.length splitter =? 3
       then
         iface_name <- lift (Py.index splitter 0) ;;
         '(iface_lineprotocol, iface_operstatus) <- lift (interfaces.parse_status splitter) ;;
         out2 <- command_output ("show interf " ++ iface_name) true ;;
         let lines2 := Py.splitlines out2 in
         '(iface_name, i) <-
           lift (interfaces.parse_detail lines2 iface_lineprotocol iface_operstatus) ;;
         ret (dict_set interfaces iface_name i)
       else ret interfaces)
    lines [].

Definition get_interfaces (operating_system : string) : M (option (dict Interface)) :=
  if String.eqb (Py.upper operating_system) "NXOS"
  then interfaces <- _get_interfaces_nxos ;; ret (Some interfaces)
  else ret None.

Definition _get_license_ios : M string := command_output "show license all" true.

Definition _get_license_nxos : M string := command_output "show license" true.

Definition get_license (operating_system : string) : M (option string) :=
  if String.eqb (Py.upper operating_system) "IOS"
  then software_license <- _get_license_ios ;; ret (Some software_license)
  else if String.eqb (Py.upper operating_system) "NXOS"
  then software_license <- _get_license_nxos ;; ret (Some software_license)
  else
    _ <- logging (error "Unknown operating system") ;;
    ret None.

(** ** [run_module] *)

Definition FACT_TYPES : list string :=
  ["all"; "interfaces"; "inventory"; "license"; "mac_address_table"; "routes";
   "route_neighbors"; "vrfs"].

(** [params.get('fact_type') not in (...)]; [None] is in no tuple of
    strings. *)
Definition not_a_fact_type (v : option string) : bool :=
  match v with
  | Some x => negb (str_in x FACT_TYPES)
  | None => true
  end.

(** The first statements of [run_module]: the value of
    [params['fact_type']] after the fallback to ['all'].  [params] maps a
    supplied parameter to its value, [None] being Ansible's value for a
    parameter left out. *)
Definition normalize_fact_type (params : dict (option string)) : M string :=
  if negb (dict_mem params "fact_type")
  then ret "all"
  else
    let requested :=
      match dict_get params "fact_type" with
      | Some v => v
      | None => None
      end in
    if not_a_fact_type requested
    then
      _ <- logging (warning ("Error, invalid fact type requested: "
                             ++ builtins.str requested)%string) ;;
      ret "all"
    else ret (builtins.str requested).

(** [operating_system] from the first line of [show version]. *)
Definition detect_operating_system : M string :=
  out <- command_output "show version" true ;;
  let lines := Py.splitlines out in
  l0 <- lift (Py.index lines 0) ;;
  if Py.contains "IOS" l0 then ret "IOS"
  else if Py.contains "NX-OS" l0 || Py.contains "Nexus" l0 then ret "NXOS"
  else ret "IOS".

Definition opt_fact {A : Type} (f : A -> fact) (x : option A) : fact :=
  match x with
  | Some a => f a
  | None => fact_None
  end.

(** The gathering part of [run_module], from [result['ansible_facts'] =
    {...}] to the end. *)
Definition gather (fact_type operating_system : string) : M (dict fact) :=
  let facts : dict fact :=
    [ ("ansible_net_inventory", fact_None);
      ("ansible_net_license", fact_None);
      ("ansible_net_mac_address_table", fact_None);
      ("ansible_net_routes", fact_None);
      ("ansible_net_route_neighbors", fact_None);
      ("ansible_net_vrfs", fact_None) ] in
  facts <-
    (if String.eqb fact_type "interfaces"
        || (String.eqb fact_type "all" && String.eqb operating_system "NXOS")
     then
       i <- get_interfaces operating_system ;;
       ret (dict_set facts "ansible_net_interfaces" (opt_fact fact_interfaces i))
     else ret facts) ;;
  facts <-
    (if String.eqb fact_type "inventory" || String.eqb fact_type "all"
     then
       i <- get_inventory ;;
       ret (dict_set facts "ansible_net_inventory" (fact_inventory i))
     else ret facts) ;;
  facts <-
    (if String.eqb fact_type "license" || String.eqb fact_type "all"
     then
       l <- get_license operating_system ;;
       ret (dict_set facts "ansible_net_license" (opt_fact fact_license l))
     else ret facts) ;;
  facts <-
    (if String.eqb fact_type "mac_address_table" || String.eqb fact_type "all"
     then
       (* get MAC address table *)
       mac_address_table <-
         try_except get_mac_address_table
           (fun e => _ <- logging (warning_exn e) ;; ret None) ;;
       ret (dict_set facts "ansible_net_mac_address_table"
              (opt_fact fact_mac_address_table mac_address_table))
     else ret facts) ;;
  facts <-
    (if String.eqb fact_type "routes" || String.eqb fact_type "all"
     then
       (* get L3 routes *)
       routes <- collect_routes operating_system None ;;
       let routes := if List.length routes =? 0 then None else Some routes in
       ret (dict_set facts "ansible_net_routes" (opt_fact fact_routes routes))
     else ret facts) ;;
  facts <-
    (if String.eqb fact_type "route_neighbors" || String.eqb fact_type "all"
     then
       (* get route neighbors info *)
       route_neighbors <-
         try_except (n <- get_route_neighbors ;; ret (Some n))
           (fun e => _ <- logging (warning_exn e) ;; ret None) ;;
       ret (dict_set facts "ansible_net_route_neighbors"
              (opt_fact fact_route_neighbors route_neighbors))
     else ret facts) ;;
  facts <-
    (if String.eqb fact_type "vrfs" || String.eqb fact_type "all"
     then
       (* get VRF info *)
       v <- get_vrfs operating_system ;;
       ret (dict_set facts "ansible_net_vrfs" (fact_vrfs v))
     else ret facts) ;;
  ret facts.

(** [run_module]: [check_mode] and [params] are what [AnsibleModule]
    read from the task; the value returned is the one passed to
    [module.exit_json]. *)
Definition run_module (check_mode : bool) (params : dict (option string))
  : M module_result :=
  fact_type <- normalize_fact_type params ;;
  if check_mode
  then ret {| changed := false; ansible_facts := [] |}
  else
    operating_system <- detect_operating_system ;;
    facts <- gather fact_type operating_system ;;
    ret {| changed := false; ansible_facts := facts |}.

Definition main := run_module.

End Session.

(* ================================================================== *)
(** * Vocabulary of the statements *)
(* ================================================================== *)

(** A lower-case letter or a digit. *)
Definition plain (c : ascii) : bool := Py.is_alnum c && negb (Py.is_upper c).

(** A hexadecimal digit, in either case. *)
Definition is_hex_digit (c : ascii) : bool :=
  Py.is_digit c
  || ((97 <=? Py.code c) && (Py.code c <=? 102))
  || ((65 <=? Py.code c) && (Py.code c <=? 70)).

(** Twelve hexadecimal digits. *)
Definition twelve_hex_digits (s : string) : bool :=
  (String.length s =? 12) && Py.all_str is_hex_digit s.

(** Exactly twelve alphanumeric characters. *)
Definition twelve_alnum (s : string) : bool :=
  (String.length s =? 12) && Py.isalnum s.

(** The text with the delimiters [.], [:], [-] and the white space
    stripped. *)
Definition stripped (s : string) : string :=
  Py.join "" (Py.split (Py.replace "-" "" (Py.replace ":" "" (Py.replace "." "" s)))).

(** At least one of [address] and [interface] is not [None]. *)
Definition hop_ok (hop : NextHop) : bool :=
  match nh_address hop, nh_interface hop with
  | None, None => false
  | _, _ => true
  end.

(** Every next hop the route lists has an address or an interface. *)
Definition hops_ok (r : Route) : bool :=
  match r_next_hop r with
  | Some hops => forallb hop_ok hops
  | None => true
  end.

(** What the NX-OS loop keeps true of its variables. *)
Definition nxos_hops_ok (st : nxos.state) : Prop :=
  forallb hops_ok (nxos.heap st) = true /\
  forallb hop_ok (nxos.next_hops st) = true.

(** The next hops the [via] lines of a block stand for, in order; a line
    without [via] contributes none. *)
Fixpoint block_hops (route_type : string) (block : list string)
  : result (list NextHop) :=
  match block with
  | [] => Ok []
  | line :: rest =>
      if Py.contains "via" line
      then
        rbind (nxos.parse_via route_type line) (fun hop =>
        rbind (block_hops route_type rest) (fun hops => Ok (hop :: hops)))
      else block_hops route_type rest
  end.

(** No line of the block opens a new one. *)
Definition no_ubest (block : list string) : bool :=
  forallb (fun line => negb (Py.contains "ubest" line)) block.

(** The keys of the bundle a run returned. *)
Definition bundle_keys {Dev : Type} (o : outcome Dev module_result)
  : result (list string) :=
  rbind (value o) (fun r => Ok (map fst (ansible_facts r))).

(* ================================================================== *)
(** * Canned devices *)
(* ================================================================== *)

Definition LF : string := String (ascii_of_nat 10) EmptyString.

(** Lines joined the way a terminal sends them. *)
Definition text (lines : list string) : string := Py.join LF lines.

(** A stateless device that answers a command from a table; a command it
    does not know prints nothing. *)
Definition canned (answers : dict (result string))
  (d : unit) (commands : list string) (check_rc : bool)
  : result (list string) * unit :=
  match commands with
  | [_; cmd] =>
      match dict_get answers cmd with
      | Some (Ok out) => (Ok [""; out], d)
      | Some (Raise e) => (Raise e, d)
      | None => (Ok [""; ""], d)
      end
  | _ => (Ok (map (fun _ => "") commands), d)
  end.

Definition ios_banner : string :=
  "Cisco IOS XE Software, Version 16.09.04".
Definition nxos_banner : string :=
  "Cisco Nexus Operating System (NX-OS) Software".

(** An IOS device with nothing to report. *)
Definition quiet_ios : dict (result string) :=
  [ ("show version", Ok ios_banner) ].

(** [s] between double quotes. *)
Definition quoted (s : string) : string :=
  String Py.dquote (s ++ String Py.dquote EmptyString).

(** An IOS device whose [show inventory] is refused. *)
Definition ios_inventory_refused : dict (result string) :=
  [ ("show version", Ok ios_banner);
    ("show inventory", Raise (CommandError "show inventory: command rejected")) ].

(** An IOS device whose MAC table command is refused. *)
Definition ios_mac_table_refused : dict (result string) :=
  [ ("show version", Ok ios_banner);
    ("show mac address-table dynamic",
     Raise (CommandError "show mac address-table dynamic: command rejected")) ].

(** A chassis whose serial number field is empty. *)
Definition inventory_without_serial : list string :=
  [ ("NAME: " ++ quoted "Chassis" ++ ", DESCR: " ++ quoted "Cisco ASR1002-HX Chassis")%string;
    "PID: ASR1002-HX         , VID: V01  , SN: " ].

(** An OSPF neighbor row cut short after the address. *)
Definition short_neighbor_row : string :=
  "172.31.1.2        0   FULL/  -        00:00:36    63.141.40.5".

(** A BGP entry that IOS wrapped: the prefix on the first line, the next
    hop on the following one. *)
Definition ios_wrapped_bgp : dict (result string) :=
  [ ("show ip route secondary bgp",
     Ok (text [ "B        192.168.100.128/25";
                "           [20/0] via 10.1.1.1, 00:10:00" ])) ].

(** Two NX-OS blocks, the first without a [via] line. *)
Definition nxos_block_without_via : dict (result string) :=
  [ ("show ip route bgp | begin ubest",
     Ok (text [ "10.1.0.0/16, ubest/mbest: 1/0";
                "10.2.0.0/16, ubest/mbest: 1/0";
                "    *via 10.0.0.9, [20/0], 1d, bgp-65000" ])) ].

(** The two-line OSPF entry with the next hop on a line of its own, the
    first line carrying the administrative distance. *)
Definition ospf_distance_on_first_line : dict (result string) :=
  [ ("show ip route secondary ospf",
     Ok (text [ "O    172.16.5.0/24 [110/2]";
                "via 10.0.0.1, TenGigabitEthernet0/1" ])) ].

(** The two-line OSPF entry as IOS wraps it. *)
Definition ospf_wrapped : dict (result string) :=
  [ ("show ip route secondary ospf",
     Ok (text [ "O        172.16.5.0/24";
                "           [110/2] via 10.0.0.1, 00:00:10, TenGigabitEthernet0/1" ])) ].

(** Two NX-OS blocks, the first one public. *)
Definition nxos_public_then_private : dict (result string) :=
  [ ("show ip route bgp | begin ubest",
     Ok (text [ "8.8.8.0/24, ubest/mbest: 1/0";
                "    *via 10.0.0.1, [20/0], 1d, bgp-65000";
                "10.2.0.0/16, ubest/mbest: 1/0";
                "    *via 10.0.0.9, [20/0], 1d, bgp-65000" ])) ].

(** Two NX-OS blocks, the second one without a [via] line. *)
Definition nxos_last_block_without_via : dict (result string) :=
  [ ("show ip route bgp | begin ubest",
     Ok (text [ "10.1.0.0/16, ubest/mbest: 1/0";
                "    *via 10.0.0.1, [20/0], 1d, bgp-65000";
                "10.2.0.0/16, ubest/mbest: 1/0" ])) ].

(** Two NX-OS blocks, the second one public. *)
Definition nxos_private_then_public : dict (result string) :=
  [ ("show ip route bgp | begin ubest",
     Ok (text [ "10.1.0.0/16, ubest/mbest: 1/0";
                "    *via 10.0.0.1, [20/0], 1d, bgp-65000";
                "8.8.8.0/24, ubest/mbest: 1/0";
                "    *via 10.0.0.9, [20/0], 1d, bgp-65000" ])) ].

(** Two private NX-OS blocks with their next hops. *)
Definition nxos_two_private : dict (result string) :=
  [ ("show ip route bgp | begin ubest",
     Ok (text [ "10.1.0.0/16, ubest/mbest: 2/0";
                "    *via 10.0.0.1, [20/0], 1d, bgp-65000";
                "    *via 10.0.0.2, [20/0], 1d, bgp-65000";
                "10.2.0.0/16, ubest/mbest: 1/0";
                "    *via 10.0.0.9, [20/0], 1d, bgp-65000" ])) ].

(* ================================================================== *)
(** * Vocabulary of the further properties *)
(* ================================================================== *)

(** A lower-case letter, a digit or a colon. *)
Definition canonical_char (c : ascii) : bool := plain c || Ascii.eqb c ":".

(** The kind the IOS parser writes into a route: the OSPF branch writes
    the literal ['OSPF']. *)
Definition ios_kind (route_type : string) : string :=
  if String.eqb (Py.lower route_type) "ospf" then "OSPF"
  else ios.kind_of route_type.

(** The kind [get_routes] writes into a route of the given dialect. *)
Definition kind_for (operating_system route_type : string) : string :=
  if String.eqb (Py.upper operating_system) "IOS" then ios_kind route_type
  else nxos.kind_of route_type.

(** The prefix of the route passes the collection filter. *)
Definition collected (route_type : string) (r : Route) : Prop :=
  is_routable_for_collection (r_route r) route_type = Ok true.

(** An IOS device with one static default route and one OSPF route. *)
Definition ios_with_routes : dict (result string) :=
  [ ("show version", Ok ios_banner);
    ("show ip route secondary static",
     Ok (text [ "S*    0.0.0.0/0 [1/0] via 192.0.2.1" ]));
    ("show ip route secondary ospf",
     Ok (text [ "O E2     172.16.5.0/24 [110/20] via 10.0.0.1, 00:10:00, TenGigabitEthernet0/1" ])) ].

(** What [get_routes] promises for each route of a given dialect and
    route type: a prefix that passes the filter and the kind of the
    request. *)
Definition route_ok (kind route_type : string) (r : Route) : Prop :=
  collected route_type r /\ r_kind r = kind.

(** The type-code variants the OSPF branch of the IOS parser steps over. *)
Definition OSPF_SUFFIXES : list string := ["E1"; "E2"; "IA"; "N1"; "N2"].

(** An NX-OS device that has no BGP route. *)
Definition nxos_no_bgp_route : dict (result string) :=
  [ ("show version", Ok nxos_banner);
    ("show ip route bgp | begin ubest", Ok "% No matching routes found") ].



(** An NX-OS device with a default route, a public BGP route and a VRF. *)
Definition nxos_with_routes : dict (result string) :=
  [ ("show version", Ok nxos_banner);
    ("show ip route bgp | begin ubest",
     Ok (text [ "8.8.8.0/24, ubest/mbest: 1/0";
                "    *via 10.0.0.1, [20/0], 1d, bgp-65000";
                "10.2.0.0/16, ubest/mbest: 1/0";
                "    *via 10.0.0.9, [20/0], 1d, bgp-65000" ]));
    ("show ip route static | begin ubest",
     Ok (text [ "0.0.0.0/0, ubest/mbest: 1/0";
                "    *via 192.0.2.1, [1/0], 1d, static" ]));
    ("show ip route ospf | begin ubest",
     Raise (CommandError "show ip route ospf: command rejected"));
    ("show vrf",
     Ok (text [ "VRF-Name                           VRF-ID State   Reason";
                "management                              2 Up      --" ]));
    ("show ip route vrf management direct | begin ubest",
     Ok (text [ "172.27.0.0/24, ubest/mbest: 1/0, attached";
                "    *via 172.27.0.5, mgmt0, [0/0], 1d, direct" ])) ].



(** The keys [run_module] seeds the bundle with. *)
Definition SEEDED_KEYS : list string :=
  [ "ansible_net_inventory"; "ansible_net_license";
    "ansible_net_mac_address_table"; "ansible_net_routes";
    "ansible_net_route_neighbors"; "ansible_net_vrfs" ].


(** The selectors that ask for one fact type. *)
Definition SINGLE_SELECTORS : list string :=
  [ "interfaces"; "inventory"; "license"; "mac_address_table"; "routes";
    "route_neighbors"; "vrfs" ].

(** A device that refuses every command. *)
Definition refusing (d : unit) (commands : list string) (check_rc : bool)
  : result (list string) * unit :=
  (Raise (CommandError "connection refused"), d).


(** The selector [run_module] works with: the requested one, or ["all"]
    when it is missing or not one of [FACT_TYPES]. *)
Definition selector (params : dict (option string)) : string :=
  match dict_get params "fact_type" with
  | Some (Some requested) =>
      if str_in requested FACT_TYPES then requested else "all"
  | _ => "all"
  end.

(** The row has exactly six columns once every [" -"] is deleted. *)
Definition six_columns (line : string) : bool :=
  List.length (Py.split (Py.replace " -" "" line)) =? 6.

(** An IOS device with two OSPF neighbors, the second row cut short. *)
Definition ios_ospf_neighbors_short_row : dict (result string) :=
  [ ("show ip ospf neighbor | begin Neighbor",
     Ok (text [ "Neighbor ID     Pri   State           Dead Time   Address         Interface";
                "172.31.1.1        1   FULL/DR         00:00:33    63.141.40.1     TenGigabitEthernet0/1/2";
                "172.31.1.2        0   FULL/  -        00:00:36    63.141.40.5" ]));
    ("show ip bgp summary | begin Neighbor",
     Ok (text [ "Neighbor        V           AS MsgRcvd MsgSent   TblVer  InQ OutQ Up/Down  State/PfxRcd";
                "38.142.17.145   4          174  100000   90000      500    0    0 5w2d           800000" ])) ].

(** The line is a dynamic entry of the MAC table. *)
Definition is_star_line (line : string) : bool := Py.startswith "* " line.

(** The number of MAC addresses the table holds, all interfaces taken
    together. *)
Definition total_entries (entries : list MacEntry) : nat :=
  list_sum (map (fun e => List.length (mac_addresses e)) entries).

(** The table [get_mac_address_table] returned, as a list. *)
Definition mac_entries (r : option (list MacEntry)) : list MacEntry :=
  match r with
  | Some l => l
  | None => []
  end.

(** What the loop of [get_mac_address_table] keeps true of the table:
    the keys are distinct, no list is empty, and the lists hold [n]
    addresses in all. *)
Definition table_ok (n : nat) (table : dict (list MacAddress)) : Prop :=
  NoDup (map fst table) /\
  Forall (fun kv => snd kv <> []) table /\
  list_sum (map (fun kv => List.length (snd kv)) table) = n.

(** A MAC table of an NX-OS switch: two entries on one port channel and
    one on another. *)
Definition sample_mac_table : list string :=
  [ "Legend: ";
    "   VLAN     MAC Address      Type      age     Secure NTFY Ports";
    "---------+-----------------+--------+---------+------+----+------------------";
    "*  100     a2bf.0000.0002   dynamic  0         F      F    Po10";
    "*  100     a2bf.0000.0003   dynamic  0         F      F    Po11";
    "*  110     a2bf.0000.0005   dynamic  0         F      F    Po10" ].

(** What [get_mac_address_table] makes of [sample_mac_table]. *)
Definition sample_mac_result : list MacEntry :=
  [ {| mac_interface := "Po10";
       mac_addresses :=
         [ {| mac_address := "a2:bf:00:00:00:02"; vlan_id := "100" |};
           {| mac_address := "a2:bf:00:00:00:05"; vlan_id := "110" |} ] |};
    {| mac_interface := "Po11";
       mac_addresses :=
         [ {| mac_address := "a2:bf:00:00:00:03"; vlan_id := "100" |} ] |} ].

(** The line is a [PID:] line of the inventory. *)
Definition is_pid_line (line : string) : bool := Py.startswith "PID:" line.

(** The line is neither a [NAME:] nor a [PID:] line. *)
Definition is_other_line (line : string) : bool :=
  negb (Py.startswith "NAME:" line) && negb (Py.startswith "PID:" line).

(** An inventory of one chassis and one power supply. *)
Definition sample_inventory : list string :=
  [ ("NAME: " ++ quoted "Chassis" ++ ", DESCR: " ++ quoted "Cisco ASR1002-HX Chassis")%string;
    "PID: ASR1002-HX         , VID: V01  , SN: JAE200XXXXX";
    "";
    ("NAME: " ++ quoted "Power Supply Module 0" ++ ", DESCR: "
       ++ quoted "Cisco ASR1000X 750W AC Power Supply")%string;
    "PID: ASR1000X-AC-750W   , VID: V01  , SN: POG20447X81" ].

(** The row of the brief interface table has exactly three tokens. *)
Definition three_tokens (line : string) : bool :=
  List.length (Py.split line) =? 3.

(** The detail of an NX-OS management interface. *)
Definition sample_interface_detail : list string :=
  [ "mgmt0 is up";
    "admin state is up,";
    "  Hardware: GigabitEthernet, address: 0050.56a7.1234 (bia 0050.56a7.1234)";
    "  Description: Management";
    "  Internet Address is 172.27.0.5/24";
    "  MTU 1500 bytes, BW 1000000 Kbit, DLY 10 usec";
    "  full-duplex, 1000 Mb/s" ].

(** An NX-OS device whose brief interface table has a header only. *)
Definition nxos_no_interface_rows : dict (result string) :=
  [ ("show version", Ok nxos_banner);
    ("show ip interf br oper vrf all",
     Ok (text [ "IP Interface Status for VRF default";
                "Interface            IP Address      Interface Status" ])) ].

(* ================================================================== *)
(** * Facts about the string primitives *)
(* ================================================================== *)

Module PyFacts.
Import Py.

Lemma all_str_app (p : ascii -> bool) (s t : string) :
  all_str p (s ++ t) = all_str p s && all_str p t.
Proof.
  induction s as [|c s IH]; simpl; [reflexivity|].
  rewrite IH. apply andb_assoc.
Qed.

Lemma str_app_nil_r (s : string) : (s ++ "")%string = s.
Proof. induction s as [|c s IH]; simpl; congruence. Qed.

Lemma str_app_assoc (s t u : string) : ((s ++ t) ++ u)%string = (s ++ t ++ u)%string.
Proof. induction s as [|c s IH]; simpl; congruence. Qed.

Lemma prefix_char (d c : ascii) (s : string) :
  String.prefix (String d "") (String c s) = Ascii.eqb c d.
Proof.
  simpl. destruct (ascii_dec d c) as [->|ne].
  - rewrite Ascii.eqb_refl. destruct s; reflexivity.
  - symmetry. apply Ascii.eqb_neq. congruence.
Qed.

(** Deleting a one-character pattern leaves a text without it alone. *)
Lemma replace_char_absent (d : ascii) (s : string) :
  all_str (fun c => negb (Ascii.eqb c d)) s = true ->
  replace (String d "") "" s = s.
Proof.
  unfold replace. induction s as [|c s IH]; intros H; [reflexivity|].
  simpl in H. apply andb_prop in H as [Hc Hs].
  cbn [replace_from]. rewrite prefix_char.
  apply negb_true_iff in Hc. rewrite Hc. f_equal. auto.
Qed.

Lemma replace_char_cons (d c : ascii) (s : string) :
  replace (String d "") "" (String c s) =
  if Ascii.eqb c d then replace (String d "") "" s
  else String c (replace (String d "") "" s).
Proof.
  unfold replace. cbn [replace_from]. rewrite prefix_char.
  destruct (Ascii.eqb c d); reflexivity.
Qed.

Lemma lower_fixed (s : string) :
  all_str (fun c => negb (is_upper c)) s = true -> lower s = s.
Proof.
  unfold lower. induction s as [|c s IH]; intros H; [reflexivity|].
  simpl in H. apply andb_prop in H as [Hc Hs]. simpl.
  unfold lower_char. apply negb_true_iff in Hc. rewrite Hc. f_equal. auto.
Qed.

Lemma lower_char_not_upper (c : ascii) : is_upper (lower_char c) = false.
Proof.
  destruct c as [[] [] [] [] [] [] [] []]; vm_compute; reflexivity.
Qed.

Lemma lower_no_upper (s : string) :
  all_str (fun c => negb (is_upper c)) (lower s) = true.
Proof.
  induction s as [|c s IH]; simpl; [reflexivity|].
  rewrite lower_char_not_upper. exact IH.
Qed.

(** A text without white space is a single token. *)
Lemma split_from_no_space (s cur : string) :
  all_str (fun c => negb (is_space c)) s = true ->
  (cur ++ s)%string <> "" ->
  split_from cur s = [(cur ++ s)%string].
Proof.
  revert cur. induction s as [|c s IH]; intros cur H ne.
  - rewrite str_app_nil_r in *. simpl. destruct cur; congruence.
  - simpl in H. apply andb_prop in H as [Hc Hs].
    apply negb_true_iff in Hc. simpl. rewrite Hc.
    rewrite IH; auto.
    + rewrite str_app_assoc. reflexivity.
    + rewrite str_app_assoc. simpl. destruct cur; discriminate.
Qed.

Lemma split_no_space (s : string) :
  all_str (fun c => negb (is_space c)) s = true -> s <> "" -> split s = [s].
Proof. intros H ne. unfold split. now rewrite split_from_no_space. Qed.

Lemma join_empty_cons (p : ascii -> bool) (x : string) (xs : list string) :
  all_str p x = true -> all_str p (join "" xs) = true ->
  all_str p (join "" (x :: xs)) = true.
Proof.
  intros Hx Hxs. destruct xs as [|y ys]; [exact Hx|].
  change (join "" (x :: y :: ys)) with (x ++ "" ++ join "" (y :: ys))%string.
  rewrite all_str_app, Hx. exact Hxs.
Qed.

(** Splitting and gluing back keeps every character in the class it was
    in. *)
Lemma join_split_from_all (p : ascii -> bool) (s cur : string) :
  all_str p cur = true -> all_str p s = true ->
  all_str p (join "" (split_from cur s)) = true.
Proof.
  revert cur. induction s as [|c s IH]; intros cur Hcur Hs.
  - simpl. destruct cur; [reflexivity|exact Hcur].
  - simpl in Hs. apply andb_prop in Hs as [Hc Hs]. simpl.
    destruct (is_space c).
    + destruct cur as [|c0 cur].
      * apply IH; auto.
      * apply join_empty_cons; [exact Hcur|]. apply IH; auto.
    + apply IH; auto. rewrite all_str_app, Hcur. simpl. now rewrite Hc.
Qed.

Lemma join_split_all (p : ascii -> bool) (s : string) :
  all_str p s = true -> all_str p (join "" (split s)) = true.
Proof. intros H. unfold split. now apply join_split_from_all. Qed.

Lemma all_str_and (p q : ascii -> bool) (s : string) :
  all_str p s = true -> all_str q s = true ->
  all_str (fun c => p c && q c) s = true.
Proof.
  induction s as [|c s IH]; simpl; intros Hp Hq; [reflexivity|].
  apply andb_prop in Hp as [-> Hp]. apply andb_prop in Hq as [-> Hq].
  simpl. auto.
Qed.

(** What a lower-case letter or a digit is not. *)
Lemma plain_char (c : ascii) :
  is_alnum c && negb (is_upper c) = true ->
  Ascii.eqb c "." = false /\ Ascii.eqb c ":" = false /\ Ascii.eqb c "-" = false /\
  is_space c = false /\ is_upper c = false /\ is_alnum c = true.
Proof.
  destruct c as [[] [] [] [] [] [] [] []]; vm_compute; intros H;
    try discriminate H; repeat split; reflexivity.
Qed.

End PyFacts.


(* ================================================================== *)
(** * The MAC normalizer *)
(* ================================================================== *)

Module MacFacts.
Import Py PyFacts.

Lemma bare_mac_plain (x : string) :
  isalnum (bare_mac x) = true -> all_str plain (bare_mac x) = true.
Proof.
  intros H. apply all_str_and.
  - revert H. unfold isalnum. destruct (bare_mac x); [discriminate|auto].
  - unfold bare_mac. apply join_split_all. apply lower_no_upper.
Qed.

(** A formatted address is the colon-separated form of twelve lower-case
    letters or digits. *)
Lemma format_ok_shape (x y : string) :
  format_mac_address_try x = Ok y ->
  exists m, y = colon_pairs m /\ String.length m = 12 /\ all_str plain m = true.
Proof.
  unfold format_mac_address_try, assert_, rbind.
  destruct (String.length (bare_mac x) =? 12) eqn:Hlen; [|discriminate].
  destruct (isalnum (bare_mac x)) eqn:Hal; [|discriminate].
  intros [= <-]. exists (bare_mac x). split; [reflexivity|]. split.
  - now apply Nat.eqb_eq.
  - now apply bare_mac_plain.
Qed.

Lemma bare_mac_colon_pairs (m : string) :
  String.length m = 12 -> all_str plain m = true ->
  bare_mac (colon_pairs m) = m.
Proof.
  intros Hlen Hall.
  do 12 (destruct m as [|? m]; [discriminate Hlen|]).
  destruct m; [clear Hlen|discriminate Hlen].
  simpl in Hall.
  repeat match goal with
         | H : _ && _ = true |- _ => apply andb_prop in H as [? ?]
         end.
  repeat match goal with
         | H : plain ?c = true |- _ =>
             apply plain_char in H as (? & ? & ? & ? & ? & ?)
         end.
  unfold bare_mac, colon_pairs.
  cbn [map join slice String.substring Nat.sub Nat.add String.append].
  assert (E : forall d, replace (String d "") "" "" = "") by reflexivity.
  repeat (rewrite replace_char_cons;
          repeat match goal with
                 | H : Ascii.eqb _ _ = false |- _ => rewrite H
                 end;
          cbn [Ascii.eqb Bool.eqb]).
  rewrite ?E.
  rewrite lower_fixed.
  2:{ cbn [all_str].
      repeat match goal with H : is_upper _ = false |- _ => rewrite H; clear H end.
      reflexivity. }
  rewrite split_no_space.
  - reflexivity.
  - cbn [all_str].
    repeat match goal with H : is_space _ = false |- _ => rewrite H; clear H end.
    reflexivity.
  - discriminate.
Qed.

(** A canonical address is a fixed point. *)
Lemma canonical_fixed (m : string) :
  String.length m = 12 -> all_str plain m = true ->
  format_mac_address (colon_pairs m) = colon_pairs m.
Proof.
  intros Hlen Hall.
  unfold format_mac_address, format_mac_address_try.
  rewrite bare_mac_colon_pairs by assumption.
  rewrite Hlen. cbn [Nat.eqb assert_ rbind].
  assert (Hal : isalnum m = true).
  { destruct m as [|c m]; [discriminate Hlen|].
    unfold isalnum. revert Hall. generalize (String c m). intros s.
    induction s as [|c' s IH]; simpl; [reflexivity|].
    intros H. apply andb_prop in H as [Hc Hs].
    unfold plain in Hc. apply andb_prop in Hc as [-> _]. simpl. auto. }
  rewrite Hal. reflexivity.
Qed.

End MacFacts.

(** C7.  [format_mac_address] is idempotent on every input, and the
    dot-grouped, colon-grouped and dash-grouped spellings of the same
    twelve digits all give the colon-separated lower-case form. *)
Theorem format_mac_address_idempotent :
  (forall x : string,
     format_mac_address (format_mac_address x) = format_mac_address x) /\
  format_mac_address "a2bf.0000.0002" = "a2:bf:00:00:00:02" /\
  format_mac_address "a2:bf:00:00:00:02" = "a2:bf:00:00:00:02" /\
  format_mac_address "a2-bf-00-00-00-02" = "a2:bf:00:00:00:02".
Proof.
  split; [|repeat split; reflexivity].
  intros x. unfold format_mac_address at 2 3.
  destruct (format_mac_address_try x) as [y|e] eqn:Hx.
  - apply MacFacts.format_ok_shape in Hx as (m & -> & Hlen & Hall).
    now apply MacFacts.canonical_fixed.
  - unfold format_mac_address. now rewrite Hx.
Qed.

Module StrippedFacts.
Import Py PyFacts.

Lemma lower_char_space (c : ascii) : is_space (lower_char c) = is_space c.
Proof. destruct c as [[] [] [] [] [] [] [] []]; vm_compute; reflexivity. Qed.

Lemma lower_char_alnum (c : ascii) : is_alnum (lower_char c) = is_alnum c.
Proof. destruct c as [[] [] [] [] [] [] [] []]; vm_compute; reflexivity. Qed.

Lemma lower_app (s t : string) : lower (s ++ t) = (lower s ++ lower t)%string.
Proof. unfold lower. induction s as [|c s IH]; simpl; congruence. Qed.

Lemma lower_length (s : string) : String.length (lower s) = String.length s.
Proof. unfold lower. induction s as [|c s IH]; simpl; congruence. Qed.

Lemma lower_isalnum (s : string) : isalnum (lower s) = isalnum s.
Proof.
  assert (H : forall t, all_str is_alnum (lower t) = all_str is_alnum t).
  { unfold lower. induction t as [|c t IH]; simpl; [reflexivity|].
    now rewrite lower_char_alnum, IH. }
  destruct s as [|c s]; [reflexivity|]. apply (H (String c s)).
Qed.

(** Lower-casing commutes with tokenizing. *)
Lemma split_from_lower (s cur : string) :
  split_from (lower cur) (lower s) = map lower (split_from cur s).
Proof.
  revert cur. induction s as [|c s IH]; intros cur.
  - destruct cur; reflexivity.
  - change (lower (String c s)) with (String (lower_char c) (lower s)).
    cbn [split_from]. rewrite lower_char_space.
    destruct (is_space c).
    + destruct cur as [|c0 cur].
      * apply (IH "").
      * change (lower (String c0 cur)) with (String (lower_char c0) (lower cur)).
        cbn [map]. f_equal. apply (IH "").
    + rewrite <- IH. now rewrite lower_app.
Qed.

Lemma join_lower (xs : list string) :
  join "" (map lower xs) = lower (join "" xs).
Proof.
  induction xs as [|x xs IH]; [reflexivity|].
  destruct xs as [|y ys]; [reflexivity|].
  change (join "" (x :: y :: ys)) with (x ++ "" ++ join "" (y :: ys))%string.
  change (join "" (map lower (x :: y :: ys)))
    with (lower x ++ "" ++ join "" (map lower (y :: ys)))%string.
  rewrite IH. now rewrite !lower_app.
Qed.

(** The address the test of [format_mac_address] looks at is the stripped
    input in lower case. *)
Lemma bare_mac_stripped (x : string) : bare_mac x = lower (stripped x).
Proof.
  unfold bare_mac, stripped, split.
  rewrite <- join_lower, <- split_from_lower. reflexivity.
Qed.

Lemma twelve_alnum_bare_mac (x : string) :
  (String.length (bare_mac x) =? 12) && isalnum (bare_mac x)
  = twelve_alnum (stripped x).
Proof.
  unfold twelve_alnum. now rewrite bare_mac_stripped, lower_length, lower_isalnum.
Qed.

End StrippedFacts.

(** C8, as the module has it.  [format_mac_address] returns its input
    unchanged whenever the input, with the delimiters and the white space
    stripped, is not exactly twelve alphanumeric characters. *)
Theorem format_mac_address_unchanged (x : string) :
  twelve_alnum (stripped x) = false -> format_mac_address x = x.
Proof.
  intros H. rewrite <- StrippedFacts.twelve_alnum_bare_mac in H.
  unfold format_mac_address, format_mac_address_try, assert_, rbind.
  destruct (String.length (bare_mac x) =? 12); [|reflexivity].
  simpl in H. now rewrite H.
Qed.

Lemma format_mac_address_unchanged_witness :
  twelve_alnum (stripped "not-a-mac") = false /\
  format_mac_address "not-a-mac" = "not-a-mac".
Proof.
  split; [reflexivity|].
  apply (format_mac_address_unchanged "not-a-mac"). reflexivity.
Defined.

(** C8 as stated fails: an interface name of twelve letters and digits is
    not twelve hexadecimal digits, yet it is rewritten. *)
Lemma format_mac_address_rewrites_non_hex :
  twelve_hex_digits (stripped "Port-channel1") = false /\
  format_mac_address "Port-channel1" = "po:rt:ch:an:ne:l1" /\
  format_mac_address "Port-channel1" <> "Port-channel1".
Proof. split; [reflexivity | split; [reflexivity | discriminate]]. Qed.


(* ================================================================== *)
(** * The route filter *)
(* ================================================================== *)

(** C9.  The test that decides whether a route is collected: for a prefix
    whose address part is an IPv4 address, it holds when the address is
    private, when the prefix is the default route, and when the route
    type is connected; for a public prefix other than the default route
    and a route type other than connected it fails. *)
Theorem is_routable_for_collection_cases
  (route route_type part : string) (addr_obj : ipaddress.IPv4Address_obj) :
  Py.index (Py.split_on "/" route) 0 = Ok part ->
  ipaddress.IPv4Address part = Ok addr_obj ->
  (ipaddress.is_private addr_obj = true ->
   is_routable_for_collection route route_type = Ok true) /\
  (route = "0.0.0.0/0" ->
   is_routable_for_collection route route_type = Ok true) /\
  (Py.lower route_type = "connected" ->
   is_routable_for_collection route route_type = Ok true) /\
  (ipaddress.is_private addr_obj = false -> route <> "0.0.0.0/0" ->
   Py.lower route_type <> "connected" ->
   is_routable_for_collection route route_type = Ok false).
Proof.
  intros Hpart Haddr. unfold is_routable_for_collection.
  rewrite Hpart. cbn [rbind]. rewrite Haddr. cbn [rbind].
  repeat split.
  - intros ->. reflexivity.
  - intros ->. now rewrite orb_true_r.
  - intros ->. now rewrite orb_true_r.
  - intros -> Hr Ht.
    apply String.eqb_neq in Hr. apply String.eqb_neq in Ht.
    now rewrite Hr, Ht.
Qed.

Lemma is_routable_for_collection_cases_witness :
  is_routable_for_collection "192.168.1.0/24" "BGP" = Ok true /\
  is_routable_for_collection "8.8.8.0/24" "connected" = Ok true /\
  is_routable_for_collection "8.8.8.0/24" "BGP" = Ok false /\
  is_routable_for_collection "0.0.0.0/0" "BGP" = Ok true.
Proof.
  destruct (is_routable_for_collection_cases "192.168.1.0/24" "BGP"
              (part := "192.168.1.0")
              (addr_obj := {| ipaddress._ip := 3232235776 |})
              eq_refl eq_refl) as (private & _).
  destruct (is_routable_for_collection_cases "8.8.8.0/24" "connected"
              (part := "8.8.8.0")
              (addr_obj := {| ipaddress._ip := 134744064 |})
              eq_refl eq_refl) as (_ & _ & connected & _).
  destruct (is_routable_for_collection_cases "8.8.8.0/24" "BGP"
              (part := "8.8.8.0")
              (addr_obj := {| ipaddress._ip := 134744064 |})
              eq_refl eq_refl) as (_ & _ & _ & public).
  destruct (is_routable_for_collection_cases "0.0.0.0/0" "BGP"
              (part := "0.0.0.0")
              (addr_obj := {| ipaddress._ip := 0 |})
              eq_refl eq_refl) as (_ & default & _).
  split; [|split; [|split]].
  - apply private. reflexivity.
  - apply connected. reflexivity.
  - apply public; [reflexivity | discriminate | discriminate].
  - apply default. reflexivity.
Defined.

(** The OSPF branch of the IOS parser applies the same test: its route
    type is never [connected]. *)
Lemma is_routable_ospf_agrees (route route_type : string) :
  Py.lower route_type = "ospf" ->
  is_routable_ospf route = is_routable_for_collection route route_type.
Proof.
  intros H. unfold is_routable_ospf, is_routable_for_collection. rewrite H.
  destruct (Py.index (Py.split_on "/" route) 0) as [part|e]; [|reflexivity].
  cbn [rbind]. destruct (ipaddress.IPv4Address part); [|reflexivity].
  cbn [rbind]. now rewrite orb_false_r.
Qed.

(* ================================================================== *)
(** * The route parsers *)
(* ================================================================== *)

Lemma for_each_app {A S : Type} (body : S -> A -> result S) (xs ys : list A) (s : S) :
  for_each body (xs ++ ys) s = rbind (for_each body xs s) (for_each body ys).
Proof.
  revert s. induction xs as [|x xs IH]; intros s; simpl; [reflexivity|].
  destruct (body s x); simpl; auto.
Qed.

Section RouteParserFacts.

Variable Dev : Type.
Variable send : Dev -> list string -> bool -> result (list string) * Dev.

(** What a route parser returns is decided by the second output of its
    command. *)
Lemma command_output_value (cmd : string) (check_rc : bool) (d d' : Dev)
  (stdout : list string) :
  send d ["term len 0"; cmd] check_rc = (Ok stdout, d') ->
  value (command_output send cmd check_rc d) = Py.index stdout 1 /\
  session (command_output send cmd check_rc d) = d'.
Proof.
  intros H. unfold command_output, bind, run_commands, lift. rewrite H.
  cbn [value session]. destruct (Py.index stdout 1); split; reflexivity.
Qed.

Lemma _get_routes_ios_value (route_type : string) (vrf : option string)
  (d d' : Dev) (stdout : list string) (out : string) :
  send d ["term len 0"; ios_command route_type vrf] true = (Ok stdout, d') ->
  Py.index stdout 1 = Ok out ->
  value (_get_routes_ios send route_type vrf d)
  = ios.parse_lines route_type (Py.splitlines out).
Proof.
  intros H Hout. apply command_output_value in H as [Hv _].
  unfold _get_routes_ios, bind. rewrite Hv, Hout. reflexivity.
Qed.

Lemma _get_routes_nxos_value (route_type : string) (vrf : option string)
  (d d' : Dev) (stdout : list string) (out : string) :
  send d ["term len 0"; nxos_command route_type vrf] true = (Ok stdout, d') ->
  Py.index stdout 1 = Ok out ->
  value (_get_routes_nxos send route_type vrf d)
  = nxos.parse_lines route_type (Py.splitlines out).
Proof.
  intros H Hout. apply command_output_value in H as [Hv _].
  unfold _get_routes_nxos, bind. rewrite Hv, Hout. reflexivity.
Qed.

(** C4, as the module has it.  When the first line of an OSPF entry has
    two tokens, the type code and a private or default prefix, and the
    next line is no [O] line, that line gives the one next hop of the
    route: its third token, commas removed, is the address and its last
    token the interface. *)
Theorem ospf_continuation_line
  (vrf : option string) (d d' : Dev) (stdout : list string) (out : string)
  (l1 l2 code prefix addr last : string) :
  send d ["term len 0"; ios_command "OSPF" vrf] true = (Ok stdout, d') ->
  Py.index stdout 1 = Ok out ->
  Py.splitlines out = [l1; l2] ->
  Py.startswith "O " l1 || Py.startswith "O*" l1 = true ->
  Py.split l1 = [code; prefix] ->
  is_routable_ospf prefix = Ok true ->
  Py.startswith "O " l2 || Py.startswith "O*" l2 = false ->
  Py.index (Py.split l2) 2 = Ok addr ->
  Py.index_last (Py.split l2) = Ok last ->
  value (_get_routes_ios send "OSPF" vrf d)
  = Ok [ {| r_route := prefix; r_kind := "OSPF";
            r_next_hop :=
              Some [ {| nh_address := Some (Py.replace "," "" addr);
                        nh_interface := Some last |} ] |} ].
Proof.
  intros Hsend Hout Hlines Ho1 Hs1 Hkeep Ho2 Haddr Hlast.
  rewrite (@_get_routes_ios_value "OSPF" vrf d d' stdout out Hsend Hout), Hlines.
  unfold ios.parse_lines.
  change (negb (String.eqb (Py.lower "OSPF") "ospf")) with false.
  cbn [for_each]. unfold ios.ospf_line_step at 1.
  rewrite Ho1, Hs1.
  cbn [List.length Nat.ltb Nat.leb Py.index nth_error rbind ios.routes
       ios.first_line ios.route].
  unfold ios.ospf_line_step.
  rewrite Ho2.
  cbn [negb ios.first_line ios.read_route ios.route rbind].
  rewrite Hkeep. cbn [rbind]. rewrite Haddr. cbn [rbind].
  rewrite Hlast. reflexivity.
Qed.

End RouteParserFacts.

Lemma ospf_continuation_line_witness :
  value (_get_routes_ios (canned ospf_wrapped) "OSPF" None tt)
  = Ok [ {| r_route := "172.16.5.0/24"; r_kind := "OSPF";
            r_next_hop :=
              Some [ {| nh_address := Some "10.0.0.1";
                        nh_interface := Some "TenGigabitEthernet0/1" |} ] |} ].
Proof.
  apply (@ospf_continuation_line unit (canned ospf_wrapped) None tt tt
           [""; text [ "O        172.16.5.0/24";
                       "           [110/2] via 10.0.0.1, 00:00:10, TenGigabitEthernet0/1" ]]
           (text [ "O        172.16.5.0/24";
                   "           [110/2] via 10.0.0.1, 00:00:10, TenGigabitEthernet0/1" ])
           "O        172.16.5.0/24"
           "           [110/2] via 10.0.0.1, 00:00:10, TenGigabitEthernet0/1"
           "O" "172.16.5.0/24" "10.0.0.1," "TenGigabitEthernet0/1");
    reflexivity.
Defined.

(** C4 as stated fails: on the entry whose first line ends with the
    administrative distance the parser reads a fifth token that is not
    there and raises. *)
Lemma ospf_distance_on_first_line_raises :
  value (_get_routes_ios (canned ospf_distance_on_first_line) "OSPF" None tt)
  = Raise IndexError.
Proof. vm_compute. reflexivity. Qed.

(** Inside a block that is being collected, the loop only appends the
    next hops of the [via] lines. *)
Lemma nxos_block (route_type : string) (block : list string) :
  forall (hops : list NextHop) (h : list Route) (rs : list nxos.ref)
         (nh : list NextHop) (r : nxos.ref),
    no_ubest block = true ->
    block_hops route_type block = Ok hops ->
    for_each (nxos.line_step route_type) block
      {| nxos.heap := h; nxos.routes := rs; nxos.next_hops := nh;
         nxos.route_obj := Some r |}
    = Ok {| nxos.heap := h; nxos.routes := rs; nxos.next_hops := nh ++ hops;
            nxos.route_obj := Some r |}.
Proof.
  induction block as [|line rest IH]; intros hops h rs nh r Hno Hhops.
  - injection Hhops as <-. now rewrite app_nil_r.
  - cbn [no_ubest forallb] in Hno. apply andb_prop in Hno as [Hline Hrest].
    apply negb_true_iff in Hline.
    cbn [for_each]. unfold nxos.line_step at 1. rewrite Hline.
    cbn [block_hops] in Hhops.
    destruct (Py.contains "via" line).
    + cbn [nxos.route_obj].
      destruct (nxos.parse_via route_type line) as [hop|e]; [|discriminate].
      cbn [rbind] in Hhops |- *.
      destruct (block_hops route_type rest) as [hops'|e] eqn:Hrest'; [|discriminate].
      injection Hhops as <-.
      cbn [nxos.heap nxos.routes nxos.next_hops].
      rewrite (@IH hops' h rs (nh ++ [hop]) r Hrest eq_refl).
      now rewrite <- app_assoc.
    + now apply IH.
Qed.

Section TwoBlocks.

Variable Dev : Type.
Variable send : Dev -> list string -> bool -> result (list string) * Dev.

(** C5, as the module has it.  When the output is two [ubest] blocks
    whose prefixes both pass the filter, whose [via] lines parse and
    whose second block has at least one [via] line, the parser returns
    two routes, in order, and the next-hop list of each is made of the
    [via] lines of its own block. *)
Theorem two_ubest_blocks
  (route_type : string) (vrf : option string) (d d' : Dev)
  (stdout : list string) (out : string)
  (u1 u2 prefix1 prefix2 : string) (block1 block2 : list string)
  (hops1 hops2 : list NextHop) :
  send d ["term len 0"; nxos_command route_type vrf] true = (Ok stdout, d') ->
  Py.index stdout 1 = Ok out ->
  Py.splitlines out = u1 :: block1 ++ u2 :: block2 ->
  Py.contains "ubest" u1 = true ->
  Py.contains "ubest" u2 = true ->
  no_ubest block1 = true ->
  no_ubest block2 = true ->
  nxos.parse_ubest u1 = Ok prefix1 ->
  nxos.parse_ubest u2 = Ok prefix2 ->
  is_routable_for_collection prefix1 route_type = Ok true ->
  is_routable_for_collection prefix2 route_type = Ok true ->
  block_hops route_type block1 = Ok hops1 ->
  block_hops route_type block2 = Ok hops2 ->
  hops2 <> [] ->
  value (_get_routes_nxos send route_type vrf d)
  = Ok [ {| r_route := prefix1; r_kind := nxos.kind_of route_type;
            r_next_hop := Some hops1 |};
         {| r_route := prefix2; r_kind := nxos.kind_of route_type;
            r_next_hop := Some hops2 |} ].
Proof.
  intros Hsend Hout Hlines Hu1 Hu2 Hno1 Hno2 Hp1 Hp2 Hk1 Hk2 Hh1 Hh2 Hne.
  rewrite (@_get_routes_nxos_value Dev send route_type vrf d d' stdout out Hsend Hout).
  rewrite Hlines. unfold nxos.parse_lines.
  cbn [for_each]. unfold nxos.line_step at 1.
  rewrite Hu1. cbn [nxos.route_obj]. rewrite Hp1. cbn [rbind].
  rewrite Hk1. cbn [rbind nxos.heap nxos.routes app List.length].
  rewrite for_each_app.
  rewrite (@nxos_block route_type block1 hops1 _ _ _ _ Hno1 Hh1). cbn [rbind app].
  cbn [for_each]. unfold nxos.line_step at 1.
  rewrite Hu2. cbn [nxos.route_obj nxos.heap nxos.routes nxos.next_hops].
  rewrite Hp2. cbn [rbind]. rewrite Hk2.
  cbn [rbind nxos.heap nxos.routes app List.length nxos.set_next_hop
       r_route r_kind].
  rewrite (@nxos_block route_type block2 hops2 _ _ _ _ Hno2 Hh2). cbn [rbind app].
  unfold nxos.finish. cbn [nxos.next_hops].
  destruct hops2 as [|hop hops2]; [congruence|].
  reflexivity.
Qed.

End TwoBlocks.

Lemma two_ubest_blocks_witness :
  value (_get_routes_nxos (canned nxos_two_private) "BGP" None tt)
  = Ok [ {| r_route := "10.1.0.0/16"; r_kind := "BGP";
            r_next_hop :=
              Some [ {| nh_address := Some "10.0.0.1"; nh_interface := None |};
                     {| nh_address := Some "10.0.0.2"; nh_interface := None |} ] |};
         {| r_route := "10.2.0.0/16"; r_kind := "BGP";
            r_next_hop :=
              Some [ {| nh_address := Some "10.0.0.9"; nh_interface := None |} ] |} ].
Proof.
  apply (@two_ubest_blocks unit (canned nxos_two_private) "BGP" None tt tt
           [""; text [ "10.1.0.0/16, ubest/mbest: 2/0";
                       "    *via 10.0.0.1, [20/0], 1d, bgp-65000";
                       "    *via 10.0.0.2, [20/0], 1d, bgp-65000";
                       "10.2.0.0/16, ubest/mbest: 1/0";
                       "    *via 10.0.0.9, [20/0], 1d, bgp-65000" ]]
           (text [ "10.1.0.0/16, ubest/mbest: 2/0";
                   "    *via 10.0.0.1, [20/0], 1d, bgp-65000";
                   "    *via 10.0.0.2, [20/0], 1d, bgp-65000";
                   "10.2.0.0/16, ubest/mbest: 1/0";
                   "    *via 10.0.0.9, [20/0], 1d, bgp-65000" ])
           "10.1.0.0/16, ubest/mbest: 2/0"
           "10.2.0.0/16, ubest/mbest: 1/0"
           "10.1.0.0/16" "10.2.0.0/16"
           [ "    *via 10.0.0.1, [20/0], 1d, bgp-65000";
             "    *via 10.0.0.2, [20/0], 1d, bgp-65000" ]
           [ "    *via 10.0.0.9, [20/0], 1d, bgp-65000" ]);
    try reflexivity; discriminate.
Defined.

(** C5 as stated fails: a block whose prefix is public gives no route,
    and so does a last block without a [via] line; either input of two
    blocks yields one route. *)
Lemma two_ubest_blocks_one_route :
  value (_get_routes_nxos (canned nxos_public_then_private) "BGP" None tt)
  = Ok [ {| r_route := "10.2.0.0/16"; r_kind := "BGP";
            r_next_hop :=
              Some [ {| nh_address := Some "10.0.0.9"; nh_interface := None |} ] |} ] /\
  value (_get_routes_nxos (canned nxos_last_block_without_via) "BGP" None tt)
  = Ok [ {| r_route := "10.1.0.0/16"; r_kind := "BGP";
            r_next_hop :=
              Some [ {| nh_address := Some "10.0.0.1"; nh_interface := None |} ] |} ].
Proof. split; vm_compute; reflexivity. Qed.

(** When the second block is public, [route_obj] still refers to the
    dict of the first block: the [via] lines of the second block replace
    the next hops of the first route, which is appended a second time. *)
Remark filtered_block_after_kept_block :
  value (_get_routes_nxos (canned nxos_private_then_public) "BGP" None tt)
  = Ok [ {| r_route := "10.1.0.0/16"; r_kind := "BGP";
            r_next_hop :=
              Some [ {| nh_address := Some "10.0.0.9"; nh_interface := None |} ] |};
         {| r_route := "10.1.0.0/16"; r_kind := "BGP";
            r_next_hop :=
              Some [ {| nh_address := Some "10.0.0.9"; nh_interface := None |} ] |} ].
Proof. vm_compute. reflexivity. Qed.

(** ** The bound of the suffix loop *)

Lemma index_out_of_range {A : Type} (xs : list A) (i : nat) :
  List.length xs <= i -> Py.index xs i = Raise IndexError.
Proof.
  intros H. unfold Py.index.
  now rewrite (proj2 (nth_error_None xs i) H).
Qed.

Lemma index_raises_IndexError {A : Type} (xs : list A) (i : nat) (e : exn) :
  Py.index xs i = Raise e -> e = IndexError.
Proof.
  unfold Py.index. destruct (nth_error xs i); [discriminate|].
  now intros [= <-].
Qed.

(** Once the fuel covers the tokens right of [n], more fuel changes
    nothing: the loop ends by itself, with a prefix or with Python's
    [IndexError], before the bound is reached. *)
Lemma skip_suffixes_fuel (splitter : list string) (extra : nat) :
  forall (fuel r n : nat) (route next_hop_address : string),
    List.length splitter <= n + fuel ->
    ios.skip_suffixes (fuel + extra) splitter r n route next_hop_address
    = ios.skip_suffixes fuel splitter r n route next_hop_address.
Proof.
  induction fuel as [|fuel IH]; intros r n route nh Hlen.
  - cbn [Nat.add]. destruct extra as [|extra]; [reflexivity|].
    cbn [ios.skip_suffixes].
    destruct (str_in route _); [|reflexivity].
    rewrite (index_out_of_range splitter (i := n + 1)) by lia.
    destruct (Py.index splitter (r + 1)) as [x|e] eqn:E; cbn [rbind];
      [reflexivity|].
    now rewrite (index_raises_IndexError _ _ E).
  - cbn [Nat.add ios.skip_suffixes].
    destruct (str_in route _); [|reflexivity].
    destruct (Py.index splitter (r + 1)) as [x|e]; cbn [rbind]; [|reflexivity].
    destruct (Py.index splitter (n + 1)) as [y|e]; cbn [rbind]; [|reflexivity].
    apply IH. lia.
Qed.

(** ** Next hops *)

Lemma for_each_invariant {A S : Type} (P : S -> Prop) (body : S -> A -> result S) :
  (forall s x s', P s -> body s x = Ok s' -> P s') ->
  forall xs s s', P s -> for_each body xs s = Ok s' -> P s'.
Proof.
  intros Hstep. induction xs as [|x xs IH]; intros s s' Hs H.
  - injection H as <-. exact Hs.
  - cbn [for_each] in H. destruct (body s x) as [s1|e] eqn:Hb; [|discriminate].
    eapply IH; [|exact H]. eapply Hstep; eauto.
Qed.

(** Case analysis along the binds and tests of a loop body that returned
    normally. *)
Ltac returned H :=
  lazymatch type of H with
  | Ok _ = Ok _ => injection H as <-
  | Raise _ = Ok _ => discriminate H
  | context [rbind ?c _] => destruct c eqn:?; cbn [rbind] in H; returned H
  | context [if ?b then _ else _] => destruct b eqn:?; returned H
  | context [match ?o with Some _ => _ | None => _ end] =>
      destruct o eqn:?; returned H
  | context [match ?p with (_, _) => _ end] => destruct p; returned H
  | _ => idtac
  end.

Lemma forallb_snoc {A : Type} (p : A -> bool) (xs : list A) (x : A) :
  forallb p xs = true -> p x = true -> forallb p (xs ++ [x]) = true.
Proof. intros Hxs Hx. rewrite forallb_app, Hxs. simpl. now rewrite Hx. Qed.

Lemma ios_line_step_hops (route_type first_letter : string)
  (routes : list Route) (line : string) (routes' : list Route) :
  forallb hops_ok routes = true ->
  ios.line_step route_type first_letter routes line = Ok routes' ->
  forallb hops_ok routes' = true.
Proof.
  intros Hok H. unfold ios.line_step in H.
  returned H; auto.
  apply forallb_snoc; [assumption|].
  match goal with
  | Hh : _ = Ok ?hops |- hops_ok {| r_route := _; r_kind := _; r_next_hop := ?hops |} = true =>
      returned Hh; reflexivity
  end.
Qed.

Lemma ios_ospf_line_step_hops (st st' : ios.ospf_state) (line : string) :
  forallb hops_ok (ios.routes st) = true ->
  ios.ospf_line_step st line = Ok st' ->
  forallb hops_ok (ios.routes st') = true.
Proof.
  intros Hok H. unfold ios.ospf_line_step in H.
  returned H; auto; cbn [ios.routes]; now apply forallb_snoc.
Qed.

(** Every next hop of every route the IOS parser returns has an address
    or an interface. *)
Lemma ios_parse_lines_hops (route_type : string) (lines : list string)
  (routes : list Route) :
  ios.parse_lines route_type lines = Ok routes ->
  forallb hops_ok routes = true.
Proof.
  unfold ios.parse_lines. intros H.
  destruct (negb (String.eqb (Py.lower route_type) "ospf")).
  - destruct (Py.str_index0 route_type) as [c|e]; [|discriminate].
    cbn [rbind] in H.
    revert H. apply for_each_invariant with (P := fun rs => forallb hops_ok rs = true).
    + intros s x s'. apply ios_line_step_hops.
    + reflexivity.
  - destruct (for_each ios.ospf_line_step lines _) as [st|e] eqn:Hloop; [|discriminate].
    injection H as <-. revert Hloop.
    apply for_each_invariant
      with (P := fun st => forallb hops_ok (ios.routes st) = true).
    + intros s x s'. apply ios_ospf_line_step_hops.
    + reflexivity.
Qed.

Lemma via_hop_ok (route_type : string) (splitter : list string) (nha : string) :
  hop_ok (nxos.via_hop route_type splitter nha) = true.
Proof.
  unfold nxos.via_hop.
  match goal with |- context [match ?c with _ => _ end] => destruct c end;
    reflexivity.
Qed.

Lemma set_next_hop_ok (h : list Route) (r : nxos.ref) (hops : list NextHop) :
  forallb hops_ok h = true -> forallb hop_ok hops = true ->
  forallb hops_ok (nxos.set_next_hop h r hops) = true.
Proof.
  revert r. induction h as [|x h IH]; intros r Hh Hhops; [reflexivity|].
  cbn [forallb] in Hh. apply andb_prop in Hh as [Hx Hh].
  destruct r as [|r]; cbn [nxos.set_next_hop forallb].
  - rewrite Hh. unfold hops_ok at 1. cbn [r_next_hop]. now rewrite Hhops.
  - rewrite Hx. now apply IH.
Qed.

Lemma parse_via_ok (route_type line : string) (hop : NextHop) :
  nxos.parse_via route_type line = Ok hop -> hop_ok hop = true.
Proof.
  unfold nxos.parse_via. intros H. returned H. apply via_hop_ok.
Qed.

Lemma nxos_line_step_hops (route_type : string) (st st' : nxos.state)
  (line : string) :
  nxos_hops_ok st -> nxos.line_step route_type st line = Ok st' ->
  nxos_hops_ok st'.
Proof.
  intros [Hheap Hnext] H. unfold nxos.line_step in H.
  destruct (Py.contains "ubest" line).
  - match type of H with
    | context [nxos.heap ?s] => set (st1 := s) in H
    end.
    assert (H1 : forallb hops_ok (nxos.heap st1) = true).
    { subst st1. destruct (nxos.route_obj st); cbn [nxos.heap];
        [now apply set_next_hop_ok | assumption]. }
    clearbody st1.
    destruct (nxos.parse_ubest line) as [prefix|e]; [|discriminate].
    cbn [rbind] in H.
    destruct (is_routable_for_collection prefix route_type) as [[|]|e];
      [| |discriminate]; cbn [rbind] in H; injection H as <-;
      split; cbn [nxos.heap nxos.next_hops]; auto.
    now apply forallb_snoc.
  - destruct (Py.contains "via" line).
    + destruct (nxos.route_obj st); [|injection H as <-; now split].
      destruct (nxos.parse_via route_type line) as [hop|e] eqn:Hhop;
        [|discriminate].
      cbn [rbind] in H. injection H as <-.
      split; cbn [nxos.heap nxos.next_hops]; [assumption|].
      apply forallb_snoc; [assumption|]. now apply parse_via_ok in Hhop.
    + injection H as <-. now split.
Qed.

Lemma deref_hops (h : list Route) (rs : list nxos.ref) :
  forallb hops_ok h = true ->
  forall acc out,
    forallb hops_ok acc = true ->
    for_each (fun acc r => rbind (Py.index h r) (fun x => Ok (acc ++ [x]))) rs acc
    = Ok out ->
    forallb hops_ok out = true.
Proof.
  intros Hh acc out Hacc H. revert H.
  apply for_each_invariant with (P := fun l => forallb hops_ok l = true);
    [|exact Hacc].
  intros s r s' Hs H. unfold Py.index in H.
  destruct (nth_error h r) as [x|] eqn:Hx; [|discriminate].
  cbn [rbind] in H. injection H as <-.
  apply forallb_snoc; [exact Hs|].
  apply nth_error_In in Hx. rewrite forallb_forall in Hh. auto.
Qed.

(** Every next hop of every route the NX-OS parser returns has an address
    or an interface. *)
Lemma nxos_parse_lines_hops (route_type : string) (lines : list string)
  (routes : list Route) :
  nxos.parse_lines route_type lines = Ok routes ->
  forallb hops_ok routes = true.
Proof.
  unfold nxos.parse_lines. intros H.
  destruct (for_each (nxos.line_step route_type) lines _) as [st|e] eqn:Hloop;
    [|discriminate].
  cbn [rbind] in H.
  assert (Hst : nxos_hops_ok st).
  { revert Hloop. apply for_each_invariant with (P := nxos_hops_ok).
    - intros s x s'. apply nxos_line_step_hops.
    - split; reflexivity. }
  destruct Hst as [Hheap Hnext].
  unfold nxos.finish in H.
  destruct (nxos.next_hops st) as [|hop hops] eqn:Hnh.
  - cbn [rbind] in H.
    eapply deref_hops; [exact Hheap| |exact H]; reflexivity.
  - destruct (nxos.route_obj st) as [r|]; [|discriminate].
    cbn [rbind nxos.heap nxos.routes] in H.
    eapply deref_hops; [| |exact H]; [|reflexivity].
    now apply set_next_hop_ok.
Qed.

(** C2.  The IOS parser emits a BGP entry that the device wrapped over
    two lines without any [next_hop], and the NX-OS parser emits a block
    that has no [via] line with an empty next-hop list. *)
Theorem route_without_next_hop :
  value (_get_routes_ios (canned ios_wrapped_bgp) "BGP" None tt)
  = Ok [ {| r_route := "192.168.100.128/25"; r_kind := "BGP";
            r_next_hop := None |} ] /\
  value (_get_routes_nxos (canned nxos_block_without_via) "BGP" None tt)
  = Ok [ {| r_route := "10.1.0.0/16"; r_kind := "BGP"; r_next_hop := Some [] |};
         {| r_route := "10.2.0.0/16"; r_kind := "BGP";
            r_next_hop := Some [ {| nh_address := Some "10.0.0.9";
                                    nh_interface := None |} ] |} ].
Proof. split; vm_compute; reflexivity. Qed.

(* ================================================================== *)
(** * The fact extractors *)
(* ================================================================== *)

(** C6.  A [PID:] line of five tokens and an OSPF neighbor row of five
    columns each make their parser raise. *)
Theorem parse_mismatch_raises :
  inventory.parse_lines inventory_without_serial = Raise IndexError /\
  neighbors.ospf_line_step [] short_neighbor_row = Raise ValueError /\
  value (get_inventory (canned [("show inventory", Ok (text inventory_without_serial))]) tt)
  = Raise IndexError /\
  value (get_route_neighbors
           (canned [("show ip ospf neighbor | begin Neighbor",
                     Ok (text ["Neighbor ID     Pri   State           Dead Time   Address         Interface";
                               short_neighbor_row]))]) tt)
  = Raise ValueError.
Proof. repeat split; vm_compute; reflexivity. Qed.


(* ================================================================== *)
(** * The dispatcher *)
(* ================================================================== *)

Lemma dict_get_set_same {V : Type} (d : dict V) (k : string) (v : V) :
  dict_get (dict_set d k v) k = Some v.
Proof.
  induction d as [|[k' v'] d IH]; simpl.
  - now rewrite String.eqb_refl.
  - destruct (String.eqb k' k) eqn:E; simpl; rewrite E; auto.
Qed.

Section DispatcherFacts.

Variable Dev : Type.
Variable send : Dev -> list string -> bool -> result (list string) * Dev.

Lemma normalize_invalid (params : dict (option string))
  (requested : option string) (d : Dev) :
  dict_get params "fact_type" = Some requested ->
  not_a_fact_type requested = true ->
  normalize_fact_type (Dev := Dev) params d =
  {| value := Ok "all"; session := d;
     logged := [ warning ("Error, invalid fact type requested: "
                          ++ builtins.str requested) ] |}.
Proof.
  intros Hget Hbad. unfold normalize_fact_type, dict_mem.
  rewrite Hget, Hbad. reflexivity.
Qed.

Lemma normalize_valid (params : dict (option string)) (x : string) (d : Dev) :
  dict_get params "fact_type" = Some (Some x) ->
  str_in x FACT_TYPES = true ->
  normalize_fact_type (Dev := Dev) params d =
  {| value := Ok x; session := d; logged := [] |}.
Proof.
  intros Hget Hin. unfold normalize_fact_type, dict_mem, not_a_fact_type.
  rewrite Hget, Hin. reflexivity.
Qed.

(** C10.  A [fact_type] that is none of the eight selectors, [None]
    included, makes [run_module] return what it returns for ["all"] on
    the same device: the same result or exception and the same session
    afterwards; the log differs by the one warning about the selector. *)
Theorem run_module_invalid_fact_type
  (check_mode : bool) (params : dict (option string)) (requested : option string)
  (d : Dev) :
  dict_get params "fact_type" = Some requested ->
  not_a_fact_type requested = true ->
  let invalid := run_module send check_mode params d in
  let all := run_module send check_mode (dict_set params "fact_type" (Some "all")) d in
  value invalid = value all /\
  session invalid = session all /\
  logged invalid =
    warning ("Error, invalid fact type requested: " ++ builtins.str requested)
    :: logged all.
Proof.
  intros Hget Hbad. unfold run_module.
  match goal with
  | |- context [bind (normalize_fact_type params) ?k] => generalize k
  end.
  intros rest. cbv zeta. unfold bind.
  rewrite (normalize_invalid _ _ Hget Hbad).
  rewrite (normalize_valid (x := "all") _ _ (dict_get_set_same _ _ _) eq_refl).
  cbn [value session logged app].
  destruct (value (rest "all" d)); repeat split; reflexivity.
Qed.

End DispatcherFacts.

Lemma run_module_invalid_fact_type_witness :
  let invalid := run_module (canned quiet_ios) false [("fact_type", Some "bogus")] tt in
  let all := run_module (canned quiet_ios) false [("fact_type", Some "all")] tt in
  value invalid = value all /\
  session invalid = session all /\
  logged invalid =
    warning "Error, invalid fact type requested: bogus" :: logged all.
Proof.
  apply (run_module_invalid_fact_type (canned quiet_ios) false
           [("fact_type", Some "bogus")] (requested := Some "bogus") tt);
    reflexivity.
Defined.


(** ** Which keys a bundle has *)

Lemma dict_set_keys {V : Type} (d : dict V) (k : string) (v : V) :
  map fst (dict_set d k v) =
  if dict_mem d k then map fst d else map fst d ++ [k].
Proof.
  unfold dict_mem. induction d as [|[k' v'] d IH]; [reflexivity|].
  simpl. destruct (String.eqb k' k) eqn:E; [reflexivity|].
  simpl. rewrite IH. now destruct (dict_get d k).
Qed.

Section BundleKeys.

Variable Dev : Type.
Variable send : Dev -> list string -> bool -> result (list string) * Dev.

Lemma bind_ok {A B : Type} (c : M Dev A) (k : A -> M Dev B) (d : Dev) (b : B) :
  value (bind c k d) = Ok b ->
  exists a, value (c d) = Ok a /\ value (k a (session (c d))) = Ok b.
Proof.
  unfold bind. destruct (value (c d)) as [a|e]; cbn [value]; [|discriminate].
  intros H. now exists a.
Qed.

(** One [if selected: facts[key] = ...] statement of [run_module]. *)
Ltac store_step H :=
  match type of H with
  | value ((if ?selected then _ else _) _) = Ok _ =>
      destruct selected;
      [ apply bind_ok in H as (? & _ & H) | ];
      cbn [ret value] in H; injection H as <-
  end.

(** Whatever the device answers, a bundle that [run_module] hands back
    has the six seeded keys, and the [ansible_net_interfaces] key exactly
    when the selector is ["interfaces"], or ["all"] on NX-OS. *)
Lemma gather_keys (fact_type operating_system : string) (d : Dev)
  (facts : dict fact) :
  value (gather send fact_type operating_system d) = Ok facts ->
  map fst facts =
  [ "ansible_net_inventory"; "ansible_net_license";
    "ansible_net_mac_address_table"; "ansible_net_routes";
    "ansible_net_route_neighbors"; "ansible_net_vrfs" ]
  ++ (if String.eqb fact_type "interfaces"
         || (String.eqb fact_type "all" && String.eqb operating_system "NXOS")
      then [ "ansible_net_interfaces" ] else []).
Proof.
  unfold gather. intros H.
  apply bind_ok in H as (f1 & H1 & H).
  apply bind_ok in H as (f2 & H2 & H).
  apply bind_ok in H as (f3 & H3 & H).
  apply bind_ok in H as (f4 & H4 & H).
  apply bind_ok in H as (f5 & H5 & H).
  apply bind_ok in H as (f6 & H6 & H).
  apply bind_ok in H as (f7 & H7 & H).
  cbn [ret value] in H. injection H as <-.
  store_step H7; store_step H6; store_step H5; store_step H4;
    store_step H3; store_step H2; store_step H1; reflexivity.
Qed.

(** The same for [run_module] outside check mode; in check mode the
    bundle is empty. *)
Lemma run_module_keys (params : dict (option string)) (d : Dev)
  (r : module_result) :
  value (run_module send false params d) = Ok r ->
  exists fact_type operating_system,
    map fst (ansible_facts r) =
    [ "ansible_net_inventory"; "ansible_net_license";
      "ansible_net_mac_address_table"; "ansible_net_routes";
      "ansible_net_route_neighbors"; "ansible_net_vrfs" ]
    ++ (if String.eqb fact_type "interfaces"
           || (String.eqb fact_type "all" && String.eqb operating_system "NXOS")
        then [ "ansible_net_interfaces" ] else []).
Proof.
  unfold run_module. intros H.
  apply bind_ok in H as (fact_type & _ & H).
  apply bind_ok in H as (operating_system & _ & H).
  apply bind_ok in H as (facts & Hfacts & H).
  cbn [ret value] in H. injection H as <-.
  exists fact_type, operating_system. cbn [ansible_facts].
  now apply gather_keys in Hfacts.
Qed.

Lemma run_module_check_mode (params : dict (option string)) (d : Dev) :
  value (run_module send true params d)
  = Ok {| changed := false; ansible_facts := [] |}.
Proof.
  unfold run_module, bind.
  destruct (value (normalize_fact_type params d)) eqn:E; [reflexivity|].
  exfalso. revert E. unfold normalize_fact_type.
  destruct (negb (dict_mem params "fact_type")); [discriminate|].
  destruct (not_a_fact_type _); discriminate.
Qed.

End BundleKeys.

(** C1.  On an IOS device, selector ["all"], the bundle has the six keys
    [run_module] seeds and no [ansible_net_interfaces] key; the same
    holds for a selector such as ["inventory"] on either dialect. *)
Theorem run_module_ios_bundle_lacks_interfaces :
  bundle_keys (run_module (canned quiet_ios) false [("fact_type", Some "all")] tt)
  = Ok [ "ansible_net_inventory"; "ansible_net_license";
         "ansible_net_mac_address_table"; "ansible_net_routes";
         "ansible_net_route_neighbors"; "ansible_net_vrfs" ] /\
  bundle_keys (run_module (canned [("show version", Ok nxos_banner)]) false
                 [("fact_type", Some "inventory")] tt)
  = Ok [ "ansible_net_inventory"; "ansible_net_license";
         "ansible_net_mac_address_table"; "ansible_net_routes";
         "ansible_net_route_neighbors"; "ansible_net_vrfs" ].
Proof. split; vm_compute; reflexivity. Qed.

(** C3.  With selector ["all"], a refused [show inventory] ends the whole
    run with the exception, whereas a refused MAC table command is
    logged and leaves only its own key absent. *)
Theorem run_module_inventory_failure_is_fatal :
  value (run_module (canned ios_inventory_refused) false
           [("fact_type", Some "all")] tt)
  = Raise (CommandError "show inventory: command rejected") /\
  (let o := run_module (canned ios_mac_table_refused) false
              [("fact_type", Some "all")] tt in
   value o =
     Ok {| changed := false;
           ansible_facts :=
             [ ("ansible_net_inventory", fact_inventory []);
               ("ansible_net_license", fact_license "");
               ("ansible_net_mac_address_table", fact_None);
               ("ansible_net_routes", fact_None);
               ("ansible_net_route_neighbors", fact_route_neighbors []);
               ("ansible_net_vrfs", fact_vrfs []) ] |} /\
   logged o =
     [ warning_exn
         (CommandError "show mac address-table dynamic: command rejected") ]).
Proof. split; [|split]; vm_compute; reflexivity. Qed.


(* ================================================================== *)
(** * Further properties: the MAC normalizer *)
(* ================================================================== *)

(** X1.  Formatting never changes the digits of an address: the input and
    the result of [format_mac_address] agree once delimiters, white space
    and case are removed. *)
Theorem format_mac_address_keeps_digits (x : string) :
  bare_mac (format_mac_address x) = bare_mac x.
Proof.
  unfold format_mac_address, format_mac_address_try, assert_, rbind.
  destruct (String.length (bare_mac x) =? 12) eqn:Hlen; [|reflexivity].
  destruct (Py.isalnum (bare_mac x)) eqn:Hal; [|reflexivity].
  apply MacFacts.bare_mac_colon_pairs.
  - now apply Nat.eqb_eq.
  - now apply MacFacts.bare_mac_plain.
Qed.

Lemma colon_pairs_shape (m : string) :
  String.length m = 12 -> Py.all_str plain m = true ->
  String.length (colon_pairs m) = 17 /\
  Py.all_str canonical_char (colon_pairs m) = true.
Proof.
  intros Hlen Hall.
  do 12 (destruct m as [|? m]; [discriminate Hlen|]).
  destruct m; [clear Hlen|discriminate Hlen].
  split; [reflexivity|].
  cbn [Py.all_str] in Hall.
  repeat match goal with
         | H : _ && _ = true |- _ => apply andb_prop in H as [? ?]
         end.
  unfold colon_pairs.
  cbn [map Py.join Py.slice String.substring Nat.sub Nat.add String.append
       Py.all_str].
  unfold canonical_char.
  repeat match goal with
         | H : plain _ = true |- _ => rewrite H; clear H
         end.
  reflexivity.
Qed.

(** X2.  An input that strips to twelve alphanumeric characters is
    rewritten to seventeen characters, each a lower-case letter, a digit
    or a colon. *)
Theorem format_mac_address_canonical (x : string) :
  twelve_alnum (stripped x) = true ->
  String.length (format_mac_address x) = 17 /\
  Py.all_str canonical_char (format_mac_address x) = true.
Proof.
  intros H. rewrite <- StrippedFacts.twelve_alnum_bare_mac in H.
  apply andb_prop in H as [Hlen Hal].
  unfold format_mac_address, format_mac_address_try, assert_, rbind.
  rewrite Hlen, Hal.
  apply colon_pairs_shape.
  - now apply Nat.eqb_eq.
  - now apply MacFacts.bare_mac_plain.
Qed.

Lemma format_mac_address_canonical_witness :
  String.length (format_mac_address "A2-BF-00-00-00-02") = 17 /\
  Py.all_str canonical_char (format_mac_address "A2-BF-00-00-00-02") = true.
Proof.
  apply (format_mac_address_canonical "A2-BF-00-00-00-02"). reflexivity.
Defined.

(* ================================================================== *)
(** * Further properties: the route parsers and [get_routes] *)
(* ================================================================== *)

Lemma Forall_snoc {A : Type} (P : A -> Prop) (xs : list A) (x : A) :
  Forall P xs -> P x -> Forall P (xs ++ [x]).
Proof. intros Hxs Hx. apply Forall_app. split; [exact Hxs|]. now constructor. Qed.

Section SessionFacts.

Variable Dev : Type.
Variable send : Dev -> list string -> bool -> result (list string) * Dev.

Lemma bind_value {A B : Type} (c : M Dev A) (k : A -> M Dev B) (d : Dev) :
  value (bind c k d) =
  match value (c d) with
  | Ok a => value (k a (session (c d)))
  | Raise e => Raise e
  end.
Proof. unfold bind. now destruct (value (c d)). Qed.

Lemma bind_session {A B : Type} (c : M Dev A) (k : A -> M Dev B) (d : Dev) :
  session (bind c k d) =
  match value (c d) with
  | Ok a => session (k a (session (c d)))
  | Raise e => session (c d)
  end.
Proof. unfold bind. now destruct (value (c d)). Qed.

Lemma bind_logged {A B : Type} (c : M Dev A) (k : A -> M Dev B) (d : Dev) :
  logged (bind c k d) =
  match value (c d) with
  | Ok a => logged (c d) ++ logged (k a (session (c d)))
  | Raise e => logged (c d)
  end.
Proof. unfold bind. now destruct (value (c d)). Qed.


(** A route parser that returned has parsed the lines of some output. *)
Lemma _get_routes_ios_parsed (route_type : string) (vrf : option string)
  (d : Dev) (routes : list Route) :
  value (_get_routes_ios send route_type vrf d) = Ok routes ->
  exists lines, ios.parse_lines route_type lines = Ok routes.
Proof.
  unfold _get_routes_ios. rewrite bind_value.
  destruct (value (command_output send _ true d)) as [out|e]; [|discriminate].
  cbn [lift value]. intros H. now exists (Py.splitlines out).
Qed.

Lemma _get_routes_nxos_parsed (route_type : string) (vrf : option string)
  (d : Dev) (routes : list Route) :
  value (_get_routes_nxos send route_type vrf d) = Ok routes ->
  exists lines, nxos.parse_lines route_type lines = Ok routes.
Proof.
  unfold _get_routes_nxos. rewrite bind_value.
  destruct (value (command_output send _ true d)) as [out|e]; [|discriminate].
  cbn [lift value]. intros H. now exists (Py.splitlines out).
Qed.

(** What [get_routes] returns was parsed by the parser of the dialect, or
    is the empty list of an unknown dialect. *)
Lemma get_routes_parsed (operating_system route_type : string)
  (vrf : option string) (d : Dev) (routes : list Route) :
  value (get_routes send operating_system route_type vrf d) = Ok routes ->
  (String.eqb (Py.upper operating_system) "IOS" = true /\
   exists lines, ios.parse_lines route_type lines = Ok routes) \/
  (String.eqb (Py.upper operating_system) "IOS" = false /\
   exists lines, nxos.parse_lines route_type lines = Ok routes) \/
  routes = [].
Proof.
  unfold get_routes.
  destruct (String.eqb (Py.upper operating_system) "IOS").
  - intros H. left. split; [reflexivity|]. eapply _get_routes_ios_parsed; eauto.
  - destruct (String.eqb (Py.upper operating_system) "NXOS").
    + intros H. right. left. split; [reflexivity|].
      eapply _get_routes_nxos_parsed; eauto.
    + rewrite bind_value. cbn [logging value ret]. intros [= <-]. now right; right.
Qed.

(** X3.  Whatever the device prints, every next hop of every route that
    [get_routes] returns has an address or an interface. *)
Theorem get_routes_next_hops (operating_system route_type : string)
  (vrf : option string) (d : Dev) (routes : list Route) :
  value (get_routes send operating_system route_type vrf d) = Ok routes ->
  forallb hops_ok routes = true.
Proof.
  intros H. apply get_routes_parsed in H as [(_ & lines & H)|[(_ & lines & H)| ->]].
  - eapply ios_parse_lines_hops; eauto.
  - eapply nxos_parse_lines_hops; eauto.
  - reflexivity.
Qed.

End SessionFacts.

Lemma get_routes_next_hops_witness :
  forallb hops_ok
    [ {| r_route := "172.16.5.0/24"; r_kind := "OSPF";
         r_next_hop :=
           Some [ {| nh_address := Some "10.0.0.1";
                     nh_interface := Some "TenGigabitEthernet0/1" |} ] |} ]
  = true.
Proof.
  apply (@get_routes_next_hops unit (canned ios_with_routes) "IOS" "OSPF" None tt).
  reflexivity.
Defined.

Lemma ios_line_step_routes (route_type first_letter : string)
  (routes : list Route) (line : string) (routes' : list Route) :
  Forall (route_ok (ios.kind_of route_type) route_type) routes ->
  ios.line_step route_type first_letter routes line = Ok routes' ->
  Forall (route_ok (ios.kind_of route_type) route_type) routes'.
Proof.
  intros Hok H. unfold ios.line_step in H.
  returned H; auto.
  apply Forall_snoc; [assumption|]. split; [assumption|reflexivity].
Qed.

Lemma ios_ospf_line_step_routes (route_type : string)
  (st st' : ios.ospf_state) (line : string) :
  Py.lower route_type = "ospf" ->
  Forall (route_ok "OSPF" route_type) (ios.routes st) ->
  ios.ospf_line_step st line = Ok st' ->
  Forall (route_ok "OSPF" route_type) (ios.routes st').
Proof.
  intros Hrt Hok H. unfold ios.ospf_line_step in H.
  returned H; auto; cbn [ios.routes];
    (apply Forall_snoc; [assumption|]);
    (split; [|reflexivity]);
    unfold collected; cbn [r_route];
    now rewrite <- (@is_routable_ospf_agrees _ route_type Hrt).
Qed.

Lemma ios_parse_lines_routes (route_type : string) (lines : list string)
  (routes : list Route) :
  ios.parse_lines route_type lines = Ok routes ->
  Forall (route_ok (ios_kind route_type) route_type) routes.
Proof.
  unfold ios.parse_lines, ios_kind. intros H.
  destruct (String.eqb (Py.lower route_type) "ospf") eqn:Hrt; cbn [negb] in H.
  - apply String.eqb_eq in Hrt.
    destruct (for_each ios.ospf_line_step lines _) as [st|e] eqn:Hloop; [|discriminate].
    injection H as <-. revert Hloop.
    apply for_each_invariant
      with (P := fun st => Forall (route_ok "OSPF" route_type) (ios.routes st)).
    + intros s x s'. now apply ios_ospf_line_step_routes.
    + constructor.
  - destruct (Py.str_index0 route_type) as [c|e]; [|discriminate].
    cbn [rbind] in H. revert H.
    apply for_each_invariant
      with (P := Forall (route_ok (ios.kind_of route_type) route_type)).
    + intros s x s'. apply ios_line_step_routes.
    + constructor.
Qed.

Lemma set_next_hop_routes (P : Route -> Prop) (h : list Route) (r : nxos.ref)
  (hops : list NextHop) :
  (forall x hs,
     P x -> P {| r_route := r_route x; r_kind := r_kind x; r_next_hop := hs |}) ->
  Forall P h -> Forall P (nxos.set_next_hop h r hops).
Proof.
  intros HP. revert r. induction h as [|x h IH]; intros r Hh; [constructor|].
  inversion Hh as [|? ? Hx Hh']; subst.
  destruct r as [|r]; cbn [nxos.set_next_hop]; constructor; auto.
Qed.

Lemma nxos_line_step_routes (route_type : string) (st st' : nxos.state)
  (line : string) :
  Forall (route_ok (nxos.kind_of route_type) route_type) (nxos.heap st) ->
  nxos.line_step route_type st line = Ok st' ->
  Forall (route_ok (nxos.kind_of route_type) route_type) (nxos.heap st').
Proof.
  intros Hheap H. unfold nxos.line_step in H.
  destruct (Py.contains "ubest" line).
  - match type of H with
    | context [nxos.heap ?s] => set (st1 := s) in H
    end.
    assert (H1 : Forall (route_ok (nxos.kind_of route_type) route_type)
                   (nxos.heap st1)).
    { subst st1. destruct (nxos.route_obj st); cbn [nxos.heap]; [|assumption].
      apply set_next_hop_routes; [|assumption].
      intros x hs [Hc Hk]. now split. }
    clearbody st1.
    destruct (nxos.parse_ubest line) as [prefix|e]; [|discriminate].
    cbn [rbind] in H.
    destruct (is_routable_for_collection prefix route_type) as [[|]|e] eqn:Hkeep;
      [| |discriminate]; cbn [rbind] in H; injection H as <-;
      cbn [nxos.heap]; auto.
    apply Forall_snoc; [assumption|]. now split.
  - destruct (Py.contains "via" line).
    + destruct (nxos.route_obj st); [|now injection H as <-].
      destruct (nxos.parse_via route_type line); [|discriminate].
      cbn [rbind] in H. now injection H as <-.
    + now injection H as <-.
Qed.

Lemma deref_routes (P : Route -> Prop) (h : list Route) (rs : list nxos.ref) :
  Forall P h ->
  forall acc out,
    Forall P acc ->
    for_each (fun acc r => rbind (Py.index h r) (fun x => Ok (acc ++ [x]))) rs acc
    = Ok out ->
    Forall P out.
Proof.
  intros Hh acc out Hacc H. revert H.
  apply for_each_invariant with (P := Forall P); [|exact Hacc].
  intros s r s' Hs H. unfold Py.index in H.
  destruct (nth_error h r) as [x|] eqn:Hx; [|discriminate].
  cbn [rbind] in H. injection H as <-.
  apply Forall_snoc; [exact Hs|].
  apply nth_error_In in Hx. rewrite Forall_forall in Hh. auto.
Qed.

Lemma nxos_parse_lines_routes (route_type : string) (lines : list string)
  (routes : list Route) :
  nxos.parse_lines route_type lines = Ok routes ->
  Forall (route_ok (nxos.kind_of route_type) route_type) routes.
Proof.
  unfold nxos.parse_lines. intros H.
  destruct (for_each (nxos.line_step route_type) lines _) as [st|e] eqn:Hloop;
    [|discriminate].
  cbn [rbind] in H.
  assert (Hst : Forall (route_ok (nxos.kind_of route_type) route_type)
                  (nxos.heap st)).
  { revert Hloop.
    apply for_each_invariant
      with (P := fun st => Forall (route_ok (nxos.kind_of route_type) route_type)
                             (nxos.heap st)).
    - intros s x s'. apply nxos_line_step_routes.
    - constructor. }
  unfold nxos.finish in H.
  destruct (nxos.next_hops st) as [|hop hops].
  - cbn [rbind] in H. eapply deref_routes; [exact Hst| |exact H]. constructor.
  - destruct (nxos.route_obj st) as [r|]; [|discriminate].
    cbn [rbind nxos.heap nxos.routes] in H.
    eapply deref_routes; [| |exact H]; [|constructor].
    apply set_next_hop_routes; [|assumption].
    intros x hs [Hc Hk]. now split.
Qed.

Section GetRoutesFacts.

Variable Dev : Type.
Variable send : Dev -> list string -> bool -> result (list string) * Dev.

Lemma get_routes_routes (operating_system route_type : string)
  (vrf : option string) (d : Dev) (routes : list Route) :
  value (get_routes send operating_system route_type vrf d) = Ok routes ->
  Forall (route_ok (kind_for operating_system route_type) route_type) routes.
Proof.
  intros H. unfold kind_for.
  apply get_routes_parsed in H as [(-> & lines & H)|[(-> & lines & H)| ->]].
  - eapply ios_parse_lines_routes; eauto.
  - eapply nxos_parse_lines_routes; eauto.
  - constructor.
Qed.

(** X4.  Whatever the device prints, the prefix of every route that
    [get_routes] returns passes the collection filter: its address part
    is an IPv4 address that is private, or the prefix is [0.0.0.0/0], or
    the route type is [connected]. *)
Theorem get_routes_filtered (operating_system route_type : string)
  (vrf : option string) (d : Dev) (routes : list Route) :
  value (get_routes send operating_system route_type vrf d) = Ok routes ->
  Forall (collected route_type) routes.
Proof.
  intros H. apply get_routes_routes in H.
  eapply Forall_impl; [|exact H]. now intros r [Hc _].
Qed.

(** X5.  Every route that [get_routes] returns carries the kind of the
    request: on IOS the literal [OSPF] for an OSPF request, the route
    type in upper case for BGP, EIGRP and ISIS and capitalized otherwise;
    on NX-OS upper case for BGP, EIGRP, ISIS and OSPF and capitalized
    otherwise. *)
Theorem get_routes_kind (operating_system route_type : string)
  (vrf : option string) (d : Dev) (routes : list Route) :
  value (get_routes send operating_system route_type vrf d) = Ok routes ->
  Forall (fun r => r_kind r = kind_for operating_system route_type) routes.
Proof.
  intros H. apply get_routes_routes in H.
  eapply Forall_impl; [|exact H]. now intros r [_ Hk].
Qed.

End GetRoutesFacts.

Lemma get_routes_filtered_witness :
  Forall (collected "static")
    [ {| r_route := "0.0.0.0/0"; r_kind := "Static";
         r_next_hop :=
           Some [ {| nh_address := Some "192.0.2.1"; nh_interface := None |} ] |} ].
Proof.
  apply (@get_routes_filtered unit (canned ios_with_routes) "IOS" "static" None tt).
  reflexivity.
Defined.

Lemma get_routes_kind_witness :
  Forall (fun r => r_kind r = "Static")
    [ {| r_route := "0.0.0.0/0"; r_kind := "Static";
         r_next_hop :=
           Some [ {| nh_address := Some "192.0.2.1"; nh_interface := None |} ] |} ].
Proof.
  apply (@get_routes_kind unit (canned ios_with_routes) "IOS" "static" None tt).
  reflexivity.
Defined.

Section RouteParserMore.

Variable Dev : Type.
Variable send : Dev -> list string -> bool -> result (list string) * Dev.

(** X6.  An OSPF line whose second token is one of [E1], [E2], [IA],
    [N1], [N2] is read one column further to the right: the prefix is the
    third token and the next-hop address the sixth. *)
Theorem ospf_suffix_line
  (line code suffix prefix distance via addr last : string) (rest : list string) :
  Py.startswith "O " line || Py.startswith "O*" line = true ->
  Py.split line = code :: suffix :: prefix :: distance :: via :: addr :: rest ->
  str_in suffix OSPF_SUFFIXES = true ->
  str_in prefix OSPF_SUFFIXES = false ->
  is_routable_ospf prefix = Ok true ->
  Py.index_last (Py.split line) = Ok last ->
  ios.parse_lines "OSPF" [line]
  = Ok [ {| r_route := prefix; r_kind := "OSPF";
            r_next_hop :=
              Some [ {| nh_address := Some (Py.replace "," "" addr);
                        nh_interface := Some last |} ] |} ].
Proof.
  intros Ho Hs Hsuffix Hprefix Hkeep Hlast.
  unfold ios.parse_lines.
  change (negb (String.eqb (Py.lower "OSPF") "ospf")) with false.
  cbn [for_each]. unfold ios.ospf_line_step.
  rewrite Ho, Hlast, Hs.
  cbn [List.length Nat.ltb Nat.leb Py.index nth_error rbind Nat.add
       ios.skip_suffixes].
  fold OSPF_SUFFIXES. rewrite Hsuffix.
  cbn [Py.index nth_error rbind Nat.add ios.skip_suffixes].
  fold OSPF_SUFFIXES. rewrite Hprefix.
  cbn [rbind]. rewrite Hkeep. reflexivity.
Qed.

Lemma ios_line_step_acc (route_type first_letter : string)
  (acc : list Route) (line : string) :
  ios.line_step route_type first_letter acc line
  = rbind (ios.line_step route_type first_letter [] line)
          (fun found => Ok (acc ++ found)).
Proof.
  unfold ios.line_step.
  destruct (_ || _); [|cbn; now rewrite app_nil_r].
  destruct (Py.index (Py.split line) 1) as [route|e]; [|reflexivity].
  cbn [rbind].
  destruct (is_routable_for_collection route route_type) as [[|]|e];
    cbn [rbind]; [| now rewrite app_nil_r | reflexivity].
  match goal with
  | |- rbind ?c _ = _ => destruct c as [hops|e]; reflexivity
  end.
Qed.

Lemma ios_lines_acc (route_type first_letter : string) (lines : list string) :
  forall acc,
    for_each (ios.line_step route_type first_letter) lines acc
    = rbind (for_each (ios.line_step route_type first_letter) lines [])
            (fun found => Ok (acc ++ found)).
Proof.
  induction lines as [|line lines IH]; intros acc.
  - cbn. now rewrite app_nil_r.
  - cbn [for_each]. rewrite ios_line_step_acc.
    destruct (ios.line_step route_type first_letter [] line) as [found|e];
      [|reflexivity].
    cbn [rbind]. rewrite (IH (acc ++ found)), (IH found).
    destruct (for_each _ lines []) as [more|e]; [|reflexivity].
    cbn [rbind]. now rewrite app_assoc.
Qed.

(** X7.  Outside OSPF the IOS parser reads every line on its own: the
    routes of two outputs put together are the routes of the first
    followed by the routes of the second. *)
Theorem ios_lines_independent (route_type : string)
  (lines1 lines2 : list string) (routes1 routes2 : list Route) :
  Py.lower route_type <> "ospf" ->
  ios.parse_lines route_type lines1 = Ok routes1 ->
  ios.parse_lines route_type lines2 = Ok routes2 ->
  ios.parse_lines route_type (lines1 ++ lines2) = Ok (routes1 ++ routes2).
Proof.
  intros Hrt. apply String.eqb_neq in Hrt.
  unfold ios.parse_lines. rewrite Hrt. cbn [negb].
  destruct (Py.str_index0 route_type) as [c|e]; [|discriminate].
  cbn [rbind]. intros H1 H2.
  rewrite for_each_app, H1. cbn [rbind].
  now rewrite ios_lines_acc, H2.
Qed.

Lemma nxos_lines_without_ubest (route_type : string) (lines : list string) :
  no_ubest lines = true ->
  for_each (nxos.line_step route_type) lines
    {| nxos.heap := []; nxos.routes := []; nxos.next_hops := [];
       nxos.route_obj := None |}
  = Ok {| nxos.heap := []; nxos.routes := []; nxos.next_hops := [];
          nxos.route_obj := None |}.
Proof.
  induction lines as [|line lines IH]; intros H; [reflexivity|].
  cbn [no_ubest forallb] in H. apply andb_prop in H as [Hline Hrest].
  apply negb_true_iff in Hline.
  cbn [for_each]. unfold nxos.line_step at 1. rewrite Hline.
  cbn [nxos.route_obj]. destruct (Py.contains "via" line); now apply IH.
Qed.

(** X8.  When no line of the output contains [ubest], the NX-OS parser
    returns no route, whatever the lines are. *)
Theorem nxos_without_ubest (route_type : string) (vrf : option string)
  (d d' : Dev) (stdout : list string) (out : string) :
  send d ["term len 0"; nxos_command route_type vrf] true = (Ok stdout, d') ->
  Py.index stdout 1 = Ok out ->
  no_ubest (Py.splitlines out) = true ->
  value (_get_routes_nxos send route_type vrf d) = Ok [].
Proof.
  intros Hsend Hout Hno.
  rewrite (@_get_routes_nxos_value Dev send route_type vrf d d' stdout out Hsend Hout).
  unfold nxos.parse_lines. now rewrite nxos_lines_without_ubest.
Qed.

End RouteParserMore.

Lemma ospf_suffix_line_witness :
  ios.parse_lines "OSPF"
    [ "O E2     172.16.5.0/24 [110/20] via 10.0.0.1, 00:10:00, TenGigabitEthernet0/1" ]
  = Ok [ {| r_route := "172.16.5.0/24"; r_kind := "OSPF";
            r_next_hop :=
              Some [ {| nh_address := Some "10.0.0.1";
                        nh_interface := Some "TenGigabitEthernet0/1" |} ] |} ].
Proof.
  apply (@ospf_suffix_line
           "O E2     172.16.5.0/24 [110/20] via 10.0.0.1, 00:10:00, TenGigabitEthernet0/1"
           "O" "E2" "172.16.5.0/24" "[110/20]" "via" "10.0.0.1,"
           "TenGigabitEthernet0/1" ["00:10:00,"; "TenGigabitEthernet0/1"]);
    reflexivity.
Defined.

Lemma ios_lines_independent_witness :
  ios.parse_lines "static"
    ([ "S*    0.0.0.0/0 [1/0] via 192.0.2.1" ]
     ++ [ "S        10.5.0.0/16 is directly connected, Tunnel0" ])
  = Ok ([ {| r_route := "0.0.0.0/0"; r_kind := "Static";
             r_next_hop :=
               Some [ {| nh_address := Some "192.0.2.1"; nh_interface := None |} ] |} ]
        ++ [ {| r_route := "10.5.0.0/16"; r_kind := "Static";
                r_next_hop :=
                  Some [ {| nh_address := None; nh_interface := Some "Tunnel0" |} ] |} ]).
Proof.
  apply (@ios_lines_independent "static"); [discriminate | reflexivity | reflexivity].
Defined.

Lemma nxos_without_ubest_witness :
  value (_get_routes_nxos (canned nxos_no_bgp_route) "BGP" None tt) = Ok [].
Proof.
  apply (@nxos_without_ubest unit (canned nxos_no_bgp_route) "BGP" None tt tt
           [""; "% No matching routes found"] "% No matching routes found");
    reflexivity.
Defined.

(* ================================================================== *)
(** * Further properties: collecting the route types *)
(* ================================================================== *)



Section CollectRoutes.

Variable Dev : Type.
Variable send : Dev -> list string -> bool -> result (list string) * Dev.







End CollectRoutes.

(** Case analysis along the statements of [run_module] that store a
    fact, for a run that returned. *)
Ltac stored H :=
  cbv beta in H;
  lazymatch type of H with
  | value ((if ?selected then _ else _) _) = Ok _ =>
      destruct selected eqn:?; stored H
  | value (ret _ _) = Ok _ => cbn [ret value] in H; injection H as <-
  | value (bind _ _ _) = Ok _ => apply bind_ok in H as (? & ? & H); stored H
  end.

Section ReportedRoutes.

Variable Dev : Type.
Variable send : Dev -> list string -> bool -> result (list string) * Dev.





End ReportedRoutes.




(* ================================================================== *)
(** * Further properties: [get_vrfs] *)
(* ================================================================== *)



Section GetVrfsFacts.

Variable Dev : Type.
Variable send : Dev -> list string -> bool -> result (list string) * Dev.



End GetVrfsFacts.


(* ================================================================== *)
(** * Further properties: [run_module] *)
(* ================================================================== *)

Section RunModuleFacts.

Variable Dev : Type.
Variable send : Dev -> list string -> bool -> result (list string) * Dev.

(** Reading the selector sends nothing and never raises. *)
Lemma normalize_outcome (params : dict (option string)) (d : Dev) :
  exists fact_type l,
    normalize_fact_type (Dev := Dev) params d
    = {| value := Ok fact_type; session := d; logged := l |}.
Proof.
  unfold normalize_fact_type.
  destruct (negb (dict_mem params "fact_type"));
    [eexists; eexists; reflexivity|].
  destruct (not_a_fact_type _); eexists; eexists; reflexivity.
Qed.

Lemma command_output_raise (cmd : string) (check_rc : bool) (d d' : Dev)
  (e : exn) :
  send d ["term len 0"; cmd] check_rc = (Raise e, d') ->
  value (command_output send cmd check_rc d) = Raise e /\
  session (command_output send cmd check_rc d) = d'.
Proof.
  intros H. unfold command_output, bind, run_commands. rewrite H.
  split; reflexivity.
Qed.

(** X14.  In check mode [run_module] returns an empty bundle, unchanged,
    and sends no command to the device. *)
Theorem run_module_check_mode_is_inert (params : dict (option string)) (d : Dev) :
  value (run_module send true params d)
  = Ok {| changed := false; ansible_facts := [] |} /\
  session (run_module send true params d) = d.
Proof.
  unfold run_module. rewrite bind_value, bind_session.
  destruct (normalize_outcome params d) as (fact_type & l & ->).
  split; reflexivity.
Qed.

(** X15.  When the version banner cannot be fetched, [run_module] ends
    with the exception of that command and sends nothing after it,
    whatever the selector. *)
Theorem run_module_bootstrap_failure (params : dict (option string))
  (d d' : Dev) (e : exn) :
  send d ["term len 0"; "show version"] true = (Raise e, d') ->
  value (run_module send false params d) = Raise e /\
  session (run_module send false params d) = d'.
Proof.
  intros Hsend.
  assert (Hd : value (detect_operating_system send d) = Raise e /\
               session (detect_operating_system send d) = d').
  { apply command_output_raise in Hsend as [Hv Hs].
    unfold detect_operating_system. now rewrite bind_value, bind_session, Hv. }
  destruct Hd as [Hv Hs].
  unfold run_module. rewrite bind_value, bind_session.
  destruct (normalize_outcome params d) as (fact_type & l & ->).
  cbn [value session]. rewrite bind_value, bind_session, Hv. now split.
Qed.

End RunModuleFacts.

Lemma run_module_bootstrap_failure_witness :
  value (run_module refusing false [("fact_type", Some "all")] tt)
  = Raise (CommandError "connection refused") /\
  session (run_module refusing false [("fact_type", Some "all")] tt) = tt.
Proof.
  apply (@run_module_bootstrap_failure unit refusing
           [("fact_type", Some "all")] tt tt).
  reflexivity.
Defined.

Section Selectors.

Variable Dev : Type.
Variable send : Dev -> list string -> bool -> result (list string) * Dev.






End Selectors.


Section BundleFacts.

Variable Dev : Type.
Variable send : Dev -> list string -> bool -> result (list string) * Dev.

Lemma normalize_value (params : dict (option string)) (d : Dev) :
  value (normalize_fact_type (Dev := Dev) params d) = Ok (selector params) /\
  session (normalize_fact_type (Dev := Dev) params d) = d.
Proof.
  unfold normalize_fact_type, selector, dict_mem, not_a_fact_type.
  destruct (dict_get params "fact_type") as [[requested|]|]; cbn [negb];
    try (split; reflexivity).
  destruct (str_in requested FACT_TYPES); split; reflexivity.
Qed.

(** X17.  Outside check mode a bundle always has the six seeded keys, in
    the order of the seed, and has [ansible_net_interfaces] after them
    exactly when the selector is [interfaces], or [all] on an NX-OS
    device. *)
Theorem run_module_bundle_keys (params : dict (option string)) (d : Dev)
  (r : module_result) :
  value (run_module send false params d) = Ok r ->
  exists operating_system,
    value (detect_operating_system send d) = Ok operating_system /\
    map fst (ansible_facts r) =
    SEEDED_KEYS
    ++ (if String.eqb (selector params) "interfaces"
           || (String.eqb (selector params) "all"
               && String.eqb operating_system "NXOS")
        then [ "ansible_net_interfaces" ] else []).
Proof.
  unfold run_module. intros H.
  destruct (normalize_value params d) as [Hv Hs].
  apply bind_ok in H as (fact_type & Hft & H).
  rewrite Hv in Hft. injection Hft as <-. rewrite Hs in H.
  apply bind_ok in H as (operating_system & Hos & H).
  apply bind_ok in H as (facts & Hfacts & H).
  cbn [ret value] in H. injection H as <-.
  exists operating_system. split; [exact Hos|].
  now apply gather_keys in Hfacts.
Qed.

Lemma gather_single (fact_type operating_system : string) (d : Dev)
  (facts : dict fact) :
  In fact_type SINGLE_SELECTORS ->
  value (gather send fact_type operating_system d) = Ok facts ->
  forall key v,
    In (key, v) facts ->
    key <> ("ansible_net_" ++ fact_type)%string ->
    v = fact_None.
Proof.
  intros Hin H key v Hkv Hne. cbn [SINGLE_SELECTORS In] in Hin.
  destruct Hin as [<-|[<-|[<-|[<-|[<-|[<-|[<-|[]]]]]]]];
    unfold gather in H;
    cbn [String.eqb Ascii.eqb Bool.eqb orb andb] in H;
    apply bind_ok in H as (f1 & H1 & H);
    apply bind_ok in H as (f2 & H2 & H);
    apply bind_ok in H as (f3 & H3 & H);
    apply bind_ok in H as (f4 & H4 & H);
    apply bind_ok in H as (f5 & H5 & H);
    apply bind_ok in H as (f6 & H6 & H);
    apply bind_ok in H as (f7 & H7 & H);
    cbn [ret value] in H; injection H as <-;
    stored H7; stored H6; stored H5; stored H4; stored H3; stored H2; stored H1;
    cbn in Hkv;
    repeat (destruct Hkv as [Hkv|Hkv];
            [injection Hkv as <- <-;
             first [reflexivity | exfalso; apply Hne; reflexivity]|]);
    contradiction.
Qed.

(** X18.  A selector that asks for one fact type leaves every other key
    of the bundle at [None]. *)
Theorem run_module_single_selector (params : dict (option string))
  (fact_type : string) (d : Dev) (r : module_result) :
  dict_get params "fact_type" = Some (Some fact_type) ->
  In fact_type SINGLE_SELECTORS ->
  value (run_module send false params d) = Ok r ->
  Forall (fun kv => fst kv <> ("ansible_net_" ++ fact_type)%string ->
                    snd kv = fact_None)
         (ansible_facts r).
Proof.
  intros Hget Hin H. unfold run_module in H.
  apply bind_ok in H as (ft & Hft & H).
  rewrite (proj1 (normalize_value params d)) in Hft.
  unfold selector in Hft. rewrite Hget in Hft.
  assert (Hvalid : str_in fact_type FACT_TYPES = true).
  { cbn [SINGLE_SELECTORS In] in Hin.
    destruct Hin as [<-|[<-|[<-|[<-|[<-|[<-|[<-|[]]]]]]]]; reflexivity. }
  rewrite Hvalid in Hft. injection Hft as <-.
  apply bind_ok in H as (operating_system & _ & H).
  apply bind_ok in H as (facts & Hfacts & H).
  cbn [ret value] in H. injection H as <-.
  cbn [ansible_facts]. apply Forall_forall. intros [key v] Hkv.
  cbn [fst snd]. eapply gather_single; eauto.
Qed.

End BundleFacts.

Lemma run_module_bundle_keys_witness :
  exists operating_system,
    value (detect_operating_system (canned nxos_with_routes) tt)
    = Ok operating_system /\
    [ "ansible_net_inventory"; "ansible_net_license";
      "ansible_net_mac_address_table"; "ansible_net_routes";
      "ansible_net_route_neighbors"; "ansible_net_vrfs" ]
    = SEEDED_KEYS
      ++ (if String.eqb (selector [("fact_type", Some "vrfs")]) "interfaces"
             || (String.eqb (selector [("fact_type", Some "vrfs")]) "all"
                 && String.eqb operating_system "NXOS")
          then [ "ansible_net_interfaces" ] else []).
Proof.
  eapply (@run_module_bundle_keys unit (canned nxos_with_routes)
            [("fact_type", Some "vrfs")] tt
            {| changed := false;
               ansible_facts :=
                 [ ("ansible_net_inventory", fact_None);
                   ("ansible_net_license", fact_None);
                   ("ansible_net_mac_address_table", fact_None);
                   ("ansible_net_routes", fact_None);
                   ("ansible_net_route_neighbors", fact_None);
                   ("ansible_net_vrfs",
                    fact_vrfs
                      [ {| vrf_name := "management"; vrf_interfaces := None;
                           vrf_routes :=
                             [ {| r_route := "172.27.0.0/24";
                                  r_kind := "Connected";
                                  r_next_hop :=
                                    Some [ {| nh_address := Some "172.27.0.5";
                                              nh_interface := Some "mgmt0" |} ] |} ] |} ]) ] |}).
  vm_compute. reflexivity.
Defined.

Lemma run_module_single_selector_witness :
  Forall (fun kv => fst kv <> "ansible_net_license" -> snd kv = fact_None)
    [ ("ansible_net_inventory", fact_None);
      ("ansible_net_license", fact_license "");
      ("ansible_net_mac_address_table", fact_None);
      ("ansible_net_routes", fact_None);
      ("ansible_net_route_neighbors", fact_None);
      ("ansible_net_vrfs", fact_None) ].
Proof.
  apply (@run_module_single_selector unit (canned quiet_ios)
           [("fact_type", Some "license")] "license" tt
           {| changed := false;
              ansible_facts :=
                [ ("ansible_net_inventory", fact_None);
                  ("ansible_net_license", fact_license "");
                  ("ansible_net_mac_address_table", fact_None);
                  ("ansible_net_routes", fact_None);
                  ("ansible_net_route_neighbors", fact_None);
                  ("ansible_net_vrfs", fact_None) ] |});
    [reflexivity | cbn; tauto | vm_compute; reflexivity].
Defined.

(* ================================================================== *)
(** * Further properties: [get_route_neighbors] *)
(* ================================================================== *)

Lemma ospf_line_step_six (acc : list RouteNeighbor) (line : string) :
  six_columns line = true ->
  exists n, neighbors.ospf_line_step acc line = Ok (acc ++ [n]).
Proof.
  unfold six_columns, neighbors.ospf_line_step. intros H.
  apply Nat.eqb_eq in H.
  destruct (Py.split (Py.replace " -" "" line))
    as [|c1 [|c2 [|c3 [|c4 [|c5 [|c6 [|c7 rest]]]]]]]; try discriminate H.
  eauto.
Qed.

Lemma ospf_line_step_not_six (acc : list RouteNeighbor) (line : string) :
  six_columns line = false ->
  neighbors.ospf_line_step acc line = Raise ValueError.
Proof.
  unfold six_columns, neighbors.ospf_line_step. intros H.
  apply Nat.eqb_neq in H.
  destruct (Py.split (Py.replace " -" "" line))
    as [|c1 [|c2 [|c3 [|c4 [|c5 [|c6 [|c7 rest]]]]]]]; try reflexivity.
  now contradiction H.
Qed.

Lemma ospf_rows (lines : list string) :
  forall acc,
    if forallb six_columns lines
    then exists found,
           for_each neighbors.ospf_line_step lines acc = Ok (acc ++ found) /\
           List.length found = List.length lines
    else for_each neighbors.ospf_line_step lines acc = Raise ValueError.
Proof.
  induction lines as [|line lines IH]; intros acc.
  - exists []. split; [|reflexivity]. cbn. now rewrite app_nil_r.
  - cbn [forallb for_each].
    destruct (six_columns line) eqn:Hline; cbn [andb].
    + destruct (ospf_line_step_six acc line Hline) as [n ->].
      specialize (IH (acc ++ [n])).
      destruct (forallb six_columns lines); [|exact IH].
      destruct IH as (found & -> & Hlen).
      exists (n :: found). split.
      * now rewrite <- app_assoc.
      * cbn. now rewrite Hlen.
    + now rewrite ospf_line_step_not_six.
Qed.

(** X19.  The OSPF loop of [get_route_neighbors] returns one neighbor per
    row when every row has six columns once [" -"] is deleted, and
    raises [ValueError] as soon as one row has not. *)
Theorem ospf_neighbor_rows (lines : list string) :
  if forallb six_columns lines
  then exists found,
         for_each neighbors.ospf_line_step lines [] = Ok found /\
         List.length found = List.length lines
  else for_each neighbors.ospf_line_step lines [] = Raise ValueError.
Proof. apply (ospf_rows lines []). Qed.

(** X20.  The BGP loop of [get_route_neighbors] raises only on a row
    that starts with an IPv4 address and has fewer than three tokens,
    and then with [IndexError]; a row that does not start with an
    address never makes it raise. *)
Theorem bgp_row_raises (acc : list RouteNeighbor) (line : string) (e : exn) :
  neighbors.bgp_line_step acc line = Raise e ->
  e = IndexError /\
  List.length (Py.split line) < 3 /\
  exists first addr,
    Py.index (Py.split line) 0 = Ok first /\
    ipaddress.IPv4Address first = Ok addr.
Proof.
  unfold neighbors.bgp_line_step.
  destruct (Py.index (Py.split line) 0) as [first|e0] eqn:Hfirst;
    cbn [rbind]; [|discriminate].
  destruct (ipaddress.IPv4Address first) as [addr|e0] eqn:Haddr;
    [|discriminate].
  cbn [rbind].
  destruct (Py.index (Py.split line) 2) as [as_num|e0] eqn:Has;
    cbn [rbind]; [discriminate|].
  intros [= <-]. split; [now apply index_raises_IndexError in Has|].
  split; [|eauto].
  unfold Py.index in Has.
  destruct (nth_error (Py.split line) 2) eqn:Hn; [discriminate|].
  apply nth_error_None in Hn. lia.
Qed.

Lemma bgp_row_raises_witness :
  IndexError = IndexError /\
  List.length (Py.split "38.142.17.145   4") < 3 /\
  exists first addr,
    Py.index (Py.split "38.142.17.145   4") 0 = Ok first /\
    ipaddress.IPv4Address first = Ok addr.
Proof.
  apply (@bgp_row_raises [] "38.142.17.145   4" IndexError). reflexivity.
Defined.

Section NeighborsFacts.

Variable Dev : Type.
Variable send : Dev -> list string -> bool -> result (list string) * Dev.

(** X21.  When a row of the OSPF table has not six columns,
    [get_route_neighbors] ends with [ValueError] before it asks for the
    BGP table: no command follows the OSPF one and no neighbor of either
    protocol is returned. *)
Theorem get_route_neighbors_bad_ospf_row (d d' : Dev) (stdout : list string)
  (out : string) :
  send d ["term len 0"; "show ip ospf neighbor | begin Neighbor"] true
  = (Ok stdout, d') ->
  Py.index stdout 1 = Ok out ->
  forallb six_columns (skipn 1 (Py.splitlines out)) = false ->
  value (get_route_neighbors send d) = Raise ValueError /\
  session (get_route_neighbors send d) = d'.
Proof.
  intros Hsend Hout Hrows.
  apply command_output_value in Hsend as [Hv Hs].
  pose proof (ospf_rows (skipn 1 (Py.splitlines out)) []) as Hloop.
  rewrite Hrows in Hloop.
  unfold get_route_neighbors.
  rewrite bind_value, bind_session, Hv, Hout, Hs.
  rewrite bind_value, bind_session.
  cbn [lift value session]. rewrite Hloop. now split.
Qed.

End NeighborsFacts.

Lemma get_route_neighbors_bad_ospf_row_witness :
  value (get_route_neighbors (canned ios_ospf_neighbors_short_row) tt)
  = Raise ValueError /\
  session (get_route_neighbors (canned ios_ospf_neighbors_short_row) tt) = tt.
Proof.
  apply (@get_route_neighbors_bad_ospf_row unit
           (canned ios_ospf_neighbors_short_row) tt tt
           [""; text [ "Neighbor ID     Pri   State           Dead Time   Address         Interface";
                       "172.31.1.1        1   FULL/DR         00:00:33    63.141.40.1     TenGigabitEthernet0/1/2";
                       "172.31.1.2        0   FULL/  -        00:00:36    63.141.40.5" ]]
           (text [ "Neighbor ID     Pri   State           Dead Time   Address         Interface";
                   "172.31.1.1        1   FULL/DR         00:00:33    63.141.40.1     TenGigabitEthernet0/1/2";
                   "172.31.1.2        0   FULL/  -        00:00:36    63.141.40.5" ]));
    reflexivity.
Defined.

(* ================================================================== *)
(** * Further properties: [get_mac_address_table] *)
(* ================================================================== *)

(** [add_entry] along the table: the entry joins the list of its
    interface, or opens a list at the end. *)
Lemma add_entry_nil (interface : string) (entry : MacAddress) :
  mac_table.add_entry [] interface entry = [(interface, [entry])].
Proof.
  unfold mac_table.add_entry, dict_mem. cbn [dict_get negb dict_set].
  now rewrite String.eqb_refl.
Qed.

Lemma add_entry_cons (k : string) (v : list MacAddress)
  (table : dict (list MacAddress)) (interface : string) (entry : MacAddress) :
  mac_table.add_entry ((k, v) :: table) interface entry =
  if String.eqb k interface
  then (k, v ++ [entry]) :: table
  else (k, v) :: mac_table.add_entry table interface entry.
Proof.
  unfold mac_table.add_entry, dict_mem. cbn [dict_get dict_set].
  destruct (String.eqb k interface) eqn:E; cbn [negb].
  - cbn [dict_get dict_set]. rewrite ?E. reflexivity.
  - destruct (dict_get table interface) as [old|] eqn:Hget; cbn [negb].
    + cbn [dict_get dict_set]. rewrite ?E, ?Hget. reflexivity.
    + cbn [dict_get dict_set]. rewrite ?E.
      rewrite dict_get_set_same. cbn [dict_set]. rewrite ?E. reflexivity.
Qed.

Lemma add_entry_keys (table : dict (list MacAddress)) (interface : string)
  (entry : MacAddress) (k : string) :
  In k (map fst (mac_table.add_entry table interface entry)) ->
  k = interface \/ In k (map fst table).
Proof.
  induction table as [|[k' v] table IH].
  - rewrite add_entry_nil. cbn. intuition.
  - rewrite add_entry_cons. destruct (String.eqb k' interface); cbn.
    + intuition.
    + intros [H|H]; [now right; left|]. destruct (IH H); intuition.
Qed.

Lemma list_sum_cons (x : nat) (xs : list nat) :
  list_sum (x :: xs) = x + list_sum xs.
Proof. reflexivity. Qed.

Lemma add_entry_ok (n : nat) (table : dict (list MacAddress))
  (interface : string) (entry : MacAddress) :
  table_ok n table -> table_ok (S n) (mac_table.add_entry table interface entry).
Proof.
  unfold table_ok.
  revert n. induction table as [|[k v] table IH]; intros n (Hnd & Hne & Hsum).
  - rewrite add_entry_nil. cbn in Hsum. subst n. repeat split.
    + cbn. constructor; [intros []|constructor].
    + constructor; [discriminate|constructor].
  - rewrite add_entry_cons.
    rewrite map_cons, list_sum_cons in Hsum. cbn [map fst snd] in Hnd, Hsum.
    inversion Hnd as [|? ? Hk Hnd']; subst.
    inversion Hne as [|? ? Hv Hne']; subst.
    destruct (String.eqb k interface) eqn:E.
    + repeat split.
      * now constructor.
      * constructor; [|assumption]. cbn. destruct v; discriminate.
      * rewrite map_cons, list_sum_cons. cbn [snd].
        rewrite length_app. cbn. lia.
    + destruct (IH _ (conj Hnd' (conj Hne' eq_refl))) as (Hnd1 & Hne1 & Hsum1).
      repeat split.
      * cbn [map fst]. constructor; [|assumption]. intros Hin.
        apply add_entry_keys in Hin as [->|Hin]; [|contradiction].
        now rewrite String.eqb_refl in E.
      * now constructor.
      * rewrite map_cons, list_sum_cons, Hsum1. cbn [snd]. lia.
Qed.

Lemma mac_lines_ok (lines : list string) :
  forall n table table',
    table_ok n table ->
    for_each mac_table.line_step lines table = Ok table' ->
    table_ok (n + List.length (filter is_star_line lines)) table'.
Proof.
  induction lines as [|line lines IH]; intros n table table' Hok H.
  - injection H as <-. cbn. now rewrite Nat.add_0_r.
  - cbn [for_each] in H.
    destruct (mac_table.line_step table line) as [t1|e] eqn:Hstep; [|discriminate].
    unfold mac_table.line_step in Hstep. cbn [filter]. unfold is_star_line at 1.
    destruct (Py.startswith "* " line).
    + returned Hstep. cbn [List.length]. rewrite <- Nat.add_succ_comm.
      eapply IH; [|exact H]. now apply add_entry_ok.
    + injection Hstep as <-. eapply IH; eauto.
Qed.

Lemma mac_parse_lines_ok (lines : list string) (r : option (list MacEntry)) :
  mac_table.parse_lines lines = Ok r ->
  NoDup (map mac_interface (mac_entries r)) /\
  total_entries (mac_entries r) = List.length (filter is_star_line lines) /\
  r <> Some [] /\
  (r = None <-> filter is_star_line lines = []).
Proof.
  unfold mac_table.parse_lines. intros H.
  destruct (for_each mac_table.line_step lines []) as [table|e] eqn:Hloop;
    [|discriminate].
  cbn [rbind] in H. injection H as <-.
  apply (@mac_lines_ok lines 0 [] table) in Hloop;
    [|repeat split; constructor].
  destruct Hloop as (Hnd & Hne & Hsum). cbn [Nat.add] in Hsum.
  rewrite length_map.
  destruct table as [|[k v] table].
  - cbn in *. repeat split; try constructor; try discriminate; auto.
    symmetry in Hsum. now apply length_zero_iff_nil in Hsum.
  - cbn [List.length Nat.ltb Nat.leb mac_entries].
    unfold total_entries. rewrite !map_map. cbn [mac_interface mac_addresses].
    repeat split; try assumption; try discriminate.
    intros Hnil. rewrite Hnil in Hsum. cbn in Hsum.
    inversion Hne as [|? ? Hv _]; subst. cbn in Hv.
    destruct v; [contradiction|discriminate].
Qed.

(** X22.  In the list [get_mac_address_table] builds, every interface
    appears once. *)
Theorem mac_table_interfaces_distinct (lines : list string)
  (r : option (list MacEntry)) :
  mac_table.parse_lines lines = Ok r ->
  NoDup (map mac_interface (mac_entries r)).
Proof. intros H. now apply mac_parse_lines_ok in H. Qed.

(** X23.  Grouping by interface loses no entry: the lists of the result
    hold as many addresses as the output has lines that start with
    ["* "]. *)
Theorem mac_table_keeps_every_entry (lines : list string)
  (r : option (list MacEntry)) :
  mac_table.parse_lines lines = Ok r ->
  total_entries (mac_entries r) = List.length (filter is_star_line lines).
Proof. intros H. now apply mac_parse_lines_ok in H. Qed.

(** X24.  [get_mac_address_table] never returns an empty list: the
    result is [None] exactly when no line of the output starts with
    ["* "]. *)
Theorem mac_table_none_iff_no_entry (lines : list string)
  (r : option (list MacEntry)) :
  mac_table.parse_lines lines = Ok r ->
  r <> Some [] /\ (r = None <-> filter is_star_line lines = []).
Proof. intros H. now apply mac_parse_lines_ok in H. Qed.

Lemma mac_table_interfaces_distinct_witness :
  NoDup (map mac_interface (mac_entries (Some sample_mac_result))).
Proof.
  apply (@mac_table_interfaces_distinct sample_mac_table (Some sample_mac_result)).
  reflexivity.
Defined.

Lemma mac_table_keeps_every_entry_witness :
  total_entries (mac_entries (Some sample_mac_result)) = 3.
Proof.
  apply (@mac_table_keeps_every_entry sample_mac_table (Some sample_mac_result)).
  reflexivity.
Defined.

Lemma mac_table_none_iff_no_entry_witness :
  Some sample_mac_result <> Some [] /\
  (Some sample_mac_result = None <-> filter is_star_line sample_mac_table = []).
Proof.
  apply (@mac_table_none_iff_no_entry sample_mac_table (Some sample_mac_result)).
  reflexivity.
Defined.

(* ================================================================== *)
(** * Further properties: [get_inventory] *)
(* ================================================================== *)

Lemma name_line_is_no_pid_line (line : string) :
  Py.startswith "NAME:" line = true -> is_pid_line line = false.
Proof.
  unfold is_pid_line, Py.startswith. destruct line as [|c line]; [discriminate|].
  cbn [String.prefix]. destruct (ascii_dec "N" c) as [<-|]; [|discriminate].
  reflexivity.
Qed.

Lemma inventory_lines_count (lines : list string) :
  forall st st',
    for_each inventory.line_step lines st = Ok st' ->
    List.length (inventory.items st')
    = List.length (inventory.items st) + List.length (filter is_pid_line lines).
Proof.
  induction lines as [|line lines IH]; intros st st' H.
  - injection H as <-. cbn. lia.
  - cbn [for_each] in H.
    destruct (inventory.line_step st line) as [st1|e] eqn:Hstep; [|discriminate].
    rewrite (IH _ _ H). cbn [filter].
    unfold inventory.line_step in Hstep.
    destruct (Py.startswith "NAME:" line) eqn:Hname.
    + rewrite (name_line_is_no_pid_line _ Hname).
      returned Hstep. reflexivity.
    + unfold is_pid_line at 2.
      destruct (Py.startswith "PID:" line).
      * returned Hstep; cbn [inventory.items List.length];
          rewrite length_app; cbn; lia.
      * injection Hstep as <-. reflexivity.
Qed.

(** X25.  [get_inventory] returns one item per [PID:] line of the
    output. *)
Theorem inventory_one_item_per_pid_line (lines : list string)
  (items : list InventoryItem) :
  inventory.parse_lines lines = Ok items ->
  List.length items = List.length (filter is_pid_line lines).
Proof.
  unfold inventory.parse_lines. intros H.
  destruct (for_each inventory.line_step lines _) as [st|e] eqn:Hloop;
    [|discriminate].
  injection H as <-. now apply inventory_lines_count in Hloop.
Qed.

Lemma inventory_other_lines (lines : list string) (st : inventory.state) :
  forallb is_other_line lines = true ->
  for_each inventory.line_step lines st = Ok st.
Proof.
  induction lines as [|line lines IH]; intros H; [reflexivity|].
  cbn [forallb] in H. apply andb_prop in H as [Hline Hrest].
  unfold is_other_line in Hline. apply andb_prop in Hline as [Hn Hp].
  apply negb_true_iff in Hn. apply negb_true_iff in Hp.
  cbn [for_each]. unfold inventory.line_step at 1. rewrite Hn, Hp. now apply IH.
Qed.

(** X26.  A [PID:] line that no [NAME:] line precedes makes
    [get_inventory] raise [UnboundLocalError], the line having at least
    two tokens and not exactly five once the commas are removed. *)
Theorem inventory_pid_before_name (before after : list string) (pid_line : string) :
  forallb is_other_line before = true ->
  is_pid_line pid_line = true ->
  2 <= List.length (Py.split (Py.replace "," "" pid_line)) ->
  List.length (Py.split (Py.replace "," "" pid_line)) <> 5 ->
  inventory.parse_lines (before ++ pid_line :: after) = Raise UnboundLocalError.
Proof.
  intros Hbefore Hpid Hlen Hne. unfold inventory.parse_lines.
  rewrite for_each_app, (inventory_other_lines _ _ Hbefore).
  cbn [rbind for_each]. unfold inventory.line_step.
  destruct (Py.startswith "NAME:" pid_line) eqn:Hname.
  { apply name_line_is_no_pid_line in Hname. congruence. }
  unfold is_pid_line in Hpid. rewrite Hpid.
  destruct (Py.split (Py.replace "," "" pid_line))
    as [|t0 [|t1 [|t2 [|t3 [|t4 [|t5 rest]]]]]]; cbn in Hlen, Hne;
    try lia; reflexivity.
Qed.

Lemma inventory_one_item_per_pid_line_witness :
  List.length
    [ {| inv_name := "Chassis"; inv_descr := "Cisco ASR1002-HX Chassis";
         inv_pid := "ASR1002-HX"; inv_vid := Some "V01";
         inv_sn := Some "JAE200XXXXX" |};
      {| inv_name := "Power Supply Module 0";
         inv_descr := "Cisco ASR1000X 750W AC Power Supply";
         inv_pid := "ASR1000X-AC-750W"; inv_vid := Some "V01";
         inv_sn := Some "POG20447X81" |} ]
  = 2.
Proof.
  apply (@inventory_one_item_per_pid_line sample_inventory). reflexivity.
Defined.

Lemma inventory_pid_before_name_witness :
  inventory.parse_lines
    ([ "" ] ++ "PID: ASR1002-HX         , VID: V01  , SN: JAE200XXXXX" :: [])
  = Raise UnboundLocalError.
Proof.
  apply (@inventory_pid_before_name [ "" ] []
           "PID: ASR1002-HX         , VID: V01  , SN: JAE200XXXXX");
    [reflexivity | reflexivity | vm_compute; lia | vm_compute; lia].
Defined.

(* ================================================================== *)
(** * Further properties: [_get_interfaces_nxos] *)
(* ================================================================== *)

(** Only a line that contains [MTU] sets the MTU. *)
Lemma detail_step_mtu (d d' : interfaces.detail) (line2 : string) :
  interfaces.detail_step d line2 = Ok d' ->
  interfaces.iface_mtu d' = interfaces.iface_mtu d \/
  Py.contains "MTU" line2 = true.
Proof.
  unfold interfaces.detail_step. intros H.
  destruct (Py.contains "Hardware:" line2);
    [returned H; now left|].
  destruct (Py.contains "Hardware is" line2);
    [returned H; now left|].
  destruct (Py.contains "Description:" line2);
    [returned H; now left|].
  destruct (Py.contains "Internet Address" line2).
  { destruct (Py.index_last (Py.split line2)) as [last|e]; [|discriminate].
    cbn [rbind] in H.
    destruct (Py.split_on "/" last) as [|ip [|mask [|x rest]]];
      try discriminate H.
    injection H as <-. now left. }
  destruct (Py.contains "MTU" line2); [now right|].
  destruct (Py.contains "duplex" line2); [returned H; now left|].
  injection H as <-. now left.
Qed.

Lemma detail_lines_mtu (lines : list string) :
  forall d d',
    for_each interfaces.detail_step lines d = Ok d' ->
    interfaces.iface_mtu d' = interfaces.iface_mtu d \/
    existsb (Py.contains "MTU") lines = true.
Proof.
  induction lines as [|line lines IH]; intros d d' H.
  - injection H as <-. now left.
  - cbn [for_each] in H.
    destruct (interfaces.detail_step d line) as [d1|e] eqn:Hstep; [|discriminate].
    cbn [existsb].
    apply detail_step_mtu in Hstep as [Hsame| ->]; [|now right].
    destruct (IH _ _ H) as [Hsame'| ->].
    + left. congruence.
    + right. apply orb_true_r.
Qed.

(** X27.  [_get_interfaces_nxos] reports an interface only when a line
    of its detail, after the first, contains [MTU]: without one the
    conversion of the MTU raises and no interface is returned. *)
Theorem interface_needs_mtu_line (lines2 : list string)
  (iface_lineprotocol iface_operstatus name : string) (i : Interface) :
  interfaces.parse_detail lines2 iface_lineprotocol iface_operstatus
  = Ok (name, i) ->
  existsb (Py.contains "MTU") (skipn 1 lines2) = true.
Proof.
  unfold interfaces.parse_detail. intros H.
  destruct (Py.index lines2 0) as [l0|e]; [|discriminate]. cbn [rbind] in H.
  destruct (Py.index (Py.split l0) 0) as [n|e]; [|discriminate].
  cbn [rbind] in H.
  destruct (for_each interfaces.detail_step (skipn 1 lines2) interfaces.no_detail)
    as [d|e] eqn:Hloop; [|discriminate].
  cbn [rbind] in H.
  apply detail_lines_mtu in Hloop as [Hmtu|Hex]; [|exact Hex].
  unfold interfaces.make in H. rewrite Hmtu in H. discriminate H.
Qed.

Lemma interface_needs_mtu_line_witness :
  existsb (Py.contains "MTU") (skipn 1 sample_interface_detail) = true.
Proof.
  eapply (@interface_needs_mtu_line sample_interface_detail "up" "up").
  vm_compute. reflexivity.
Defined.

Section InterfacesFacts.

Variable Dev : Type.
Variable send : Dev -> list string -> bool -> result (list string) * Dev.

Lemma brief_rows_skipped (lines : list string) (acc : dict Interface) (d : Dev) :
  forallb (fun line => negb (three_tokens line)) lines = true ->
  forall body_then : dict Interface -> string -> M Dev (dict Interface),
    value
      (for_eachM
         (fun interfaces line =>
            if List.length (Py.split line) =? 3
            then body_then interfaces line
            else ret interfaces)
         lines acc d) = Ok acc /\
    session
      (for_eachM
         (fun interfaces line =>
            if List.length (Py.split line) =? 3
            then body_then interfaces line
            else ret interfaces)
         lines acc d) = d.
Proof.
  induction lines as [|line lines IH]; intros H body_then; [now split|].
  cbn [forallb] in H. apply andb_prop in H as [Hline Hrest].
  apply negb_true_iff in Hline. unfold three_tokens in Hline.
  cbn [for_eachM]. rewrite bind_value, bind_session, Hline.
  cbn [ret value session]. now apply IH.
Qed.

(** X28.  A brief interface table without a row of exactly three tokens
    gives an empty mapping, and no detail command is sent. *)
Theorem interfaces_without_rows (d d' : Dev) (stdout : list string) (out : string) :
  send d ["term len 0"; "show ip interf br oper vrf all"] true = (Ok stdout, d') ->
  Py.index stdout 1 = Ok out ->
  forallb (fun line => negb (three_tokens line)) (Py.splitlines out) = true ->
  value (_get_interfaces_nxos send d) = Ok [] /\
  session (_get_interfaces_nxos send d) = d'.
Proof.
  intros Hsend Hout Hrows.
  apply command_output_value in Hsend as [Hv Hs].
  unfold _get_interfaces_nxos.
  rewrite bind_value, bind_session, Hv, Hout, Hs.
  now apply brief_rows_skipped.
Qed.

End InterfacesFacts.

Lemma interfaces_without_rows_witness :
  value (_get_interfaces_nxos (canned nxos_no_interface_rows) tt) = Ok [] /\
  session (_get_interfaces_nxos (canned nxos_no_interface_rows) tt) = tt.
Proof.
  apply (@interfaces_without_rows unit (canned nxos_no_interface_rows) tt tt
           [""; text [ "IP Interface Status for VRF default";
                       "Interface            IP Address      Interface Status" ]]
           (text [ "IP Interface Status for VRF default";
                   "Interface            IP Address      Interface Status" ]));
    reflexivity.
Defined.
